(** * DocuMind AI Backend: the document question-answering pipeline

    A shallow embedding of the request validator ([utils/validator.js]),
    the bearer-token middleware ([middleware/auth.js]), the PDF text
    extractor ([services/pdfService.js]), the answer generator
    ([services/geminiService.js]), the orchestrator
    ([services/ragService.js]) and the upload route ([routes/hackrx.js]),
    followed by the properties proved about them. Further on, the other
    exports of these files, the start-up checks ([config/config.js],
    [server.js]), the error handler ([middleware/errorHandler.js]),
    [sanitizeFilename] ([utils/fileUtils.js]) and the two route handlers,
    with their properties.

    Conventions.
    - A JavaScript string is the list of its UTF-16 code units; [lit]
      turns a literal of the source into that list.
    - [async] code is sequential: an [await] is a bind in the monad
      [Async], which threads the external world and a trace of the
      external calls made, and carries thrown errors.
    - [logger.*] calls only write logs and are left out, except where
      evaluating their arguments can throw (those sites are modelled). *)

From Stdlib Require Import List NArith ZArith Bool Lia.
From Stdlib Require String Ascii.
From Stdlib Require Import Numbers.DecimalString.
Import ListNotations.
Import String.StringSyntax.
Open Scope string_scope.
Open Scope list_scope.

Set Implicit Arguments.
Set Warnings "-register-all".

(* ===================================================================== *)
(** * JavaScript values and string primitives *)
(* ===================================================================== *)

Module JS.

(** One UTF-16 code unit. *)
Definition codeUnit := N.

Definition jsstring := list codeUnit.

(** A literal of the source (ASCII only) as code units. *)
Definition lit (s : String.string) : jsstring :=
  map Ascii.N_of_ascii (String.list_ascii_of_string s).

(** The line feed written [\n] in the source's template literals. *)
Definition nl : jsstring := [10%N].

Definition jsstring_eqb (a b : jsstring) : bool :=
  if list_eq_dec N.eq_dec a b then true else false.

(** [String.prototype.startsWith]. *)
Fixpoint startsWith (s prefix : jsstring) {struct prefix} : bool :=
  match prefix, s with
  | [], _ => true
  | p :: prefix', c :: s' => N.eqb c p && startsWith s' prefix'
  | _ :: _, [] => false
  end.

(** [String.prototype.substring(start, end)]: both indices are clamped to
    [0, length] and swapped when out of order; a missing [end] is the
    length. *)
Definition clampIndex (len : nat) (i : Z) : nat :=
  Nat.min (Z.to_nat i) len.

Definition substring (s : jsstring) (start : Z) (finish : option Z) : jsstring :=
  let len := length s in
  let a := clampIndex len start in
  let b := match finish with Some e => clampIndex len e | None => len end in
  let lo := Nat.min a b in
  let hi := Nat.max a b in
  firstn (hi - lo) (skipn lo s).

(** WhiteSpace and LineTerminator code units of ECMAScript, the ones
    [String.prototype.trim] strips. *)
Definition isWhiteSpace (c : codeUnit) : bool :=
  (existsb (N.eqb c)
     [9; 10; 11; 12; 13; 32; 160; 5760; 8232; 8233; 8239; 8287; 12288; 65279]
   || ((8192 <=? c) && (c <=? 8202)))%N.

Fixpoint dropWhile (p : codeUnit -> bool) (s : jsstring) : jsstring :=
  match s with
  | [] => []
  | c :: s' => if p c then dropWhile p s' else s
  end.

Definition trimStart (s : jsstring) : jsstring := dropWhile isWhiteSpace s.
Definition trimEnd (s : jsstring) : jsstring := rev (dropWhile isWhiteSpace (rev s)).

(** [String.prototype.trim]. *)
Definition trim (s : jsstring) : jsstring := trimEnd (trimStart s).

(** [s.replace(/[...]/g, '')] for a character class: every code unit of
    the class is removed. *)
Definition removeAll (inClass : codeUnit -> bool) (s : jsstring) : jsstring :=
  filter (fun c => negb (inClass c)) s.

(** Decimal rendering of a non-negative integer, as a template literal
    prints a number. *)
Definition decimal (n : N) : jsstring :=
  lit (NilZero.string_of_uint (N.to_uint n)).

(** [Array.prototype.join]. *)
Fixpoint join (sep : jsstring) (parts : list jsstring) : jsstring :=
  match parts with
  | [] => []
  | [p] => p
  | p :: rest => p ++ sep ++ join sep rest
  end.

(** The values a request body or a parsed JSON text is made of. A number
    is kept as an integer: the code under study only looks at the type of
    a number, never at its value. *)
Inductive jsval :=
| VUndefined
| VNull
| VBool (b : bool)
| VNum (z : Z)
| VStr (s : jsstring)
| VArr (items : list jsval)
| VObj (fields : list (jsstring * jsval)).

(** Property read [obj[key]]: [undefined] when the key is absent. *)
Fixpoint getField (fields : list (jsstring * jsval)) (key : jsstring) : jsval :=
  match fields with
  | [] => VUndefined
  | (k, v) :: rest => if jsstring_eqb k key then v else getField rest key
  end.

(** An [Error] object, with the two extra properties axios sets and the
    extractor reads: [response] (status and status text) and [code]. *)
Record JsError := mkJsError {
  name : jsstring;
  message : jsstring;
  response : option (N * jsstring);
  code : option jsstring
}.

(** [new Error(msg)]. *)
Definition newError (msg : jsstring) : JsError :=
  mkJsError (lit "Error") msg None None.

(** The [TypeError] raised by a property read on [undefined] or [null]. *)
Definition typeError (prop : jsstring) : JsError :=
  mkJsError (lit "TypeError")
    (lit "Cannot read properties of undefined (reading '" ++ prop ++ lit "')")
    None None.

End JS.
Import JS.

(* ===================================================================== *)
(** * middleware/auth.js *)
(* ===================================================================== *)

Module Auth.

(** The JSON body of an error response ([timestamp] left out). *)
Record errorBody := mkErrorBody {
  error : jsstring;
  errorMessage : jsstring
}.

(** What the middleware does with a request: it answers it itself with
    [res.status(s).json(body)], or it calls [next()]. *)
Inductive outcome :=
| Respond (status : N) (body : errorBody)
| Next.

(** [authMiddleware(req, res, next)]. [authHeader] is
    [req.headers.authorization] ([None]: the header is absent) and
    [expectedToken] is [process.env.AUTH_BEARER_TOKEN] ([None]: the
    variable is not set). [!authHeader] also holds for the empty string.
    No operation in the [try] block throws on a string header, so the
    [catch] branch (status 500) has no counterpart here. *)
Definition authMiddleware (authHeader expectedToken : option jsstring) : outcome :=
  match authHeader with
  | None | Some [] =>
      Respond 401 (mkErrorBody (lit "Authentication required")
                               (lit "Authorization header is missing"))
  | Some authHeader =>
      if negb (startsWith authHeader (lit "Bearer ")) then
        Respond 401 (mkErrorBody (lit "Invalid authentication format")
                                 (lit "Authorization header must use Bearer token format"))
      else
        let token := substring authHeader 7 None in
        (* token !== expectedToken *)
        match expectedToken with
        | Some expected =>
            if negb (jsstring_eqb token expected) then
              Respond 401 (mkErrorBody (lit "Authentication failed")
                                       (lit "Invalid bearer token"))
            else Next
        | None =>
            Respond 401 (mkErrorBody (lit "Authentication failed")
                                     (lit "Invalid bearer token"))
        end
  end.

End Auth.

(* ===================================================================== *)
(** * Asynchronous code and the external collaborators *)
(* ===================================================================== *)

Module Runtime.

(** A [Buffer]. *)
Definition bytes := list N.

(** What [pdf-parse] resolves to. [text] is [None] when the property holds
    no string ([undefined] or [null]). *)
Record pdfData := mkPdfData {
  text : option jsstring;
  numpages : N
}.

(** Completion of a call: a value, or a thrown error. *)
Inductive result (A : Type) :=
| Return (a : A)
| Throw (e : JsError).

Arguments Return {A} a.
Arguments Throw {A} e.

(** The collaborators outside the repository, as transitions of an
    abstract world: the Gemini model ([model.generateContent(prompt)]
    followed by [response.text()]), [axios] (a GET resolving to
    [response.data]), [fs.pathExists], [fs.readFile] and [pdf-parse].
    Each may answer differently from one call to the next. *)
Class Externals := {
  World : Type;
  generateContent : jsstring -> World -> World * result jsstring;
  axiosGet : jsstring -> World -> World * result bytes;
  pathExists : jsstring -> World -> World * bool;
  readFile : jsstring -> World -> World * result bytes;
  pdf : bytes -> World -> World * result pdfData
}.

(** One entry of the trace per call to a collaborator. *)
Inductive event :=
| EvGenerateContent (prompt : jsstring)
| EvAxiosGet (url : jsstring)
| EvPathExists (path : jsstring)
| EvReadFile (path : jsstring)
| EvPdf (buffer : bytes).

Section Monad.
Context {E : Externals}.

Record State := mkState {
  world : World;
  trace : list event
}.

(** An [async] function body: it transforms the state and completes with a
    value or a thrown error. Effects made before a throw are kept. *)
Definition Async (A : Type) := State -> State * result A.

Definition ret {A} (a : A) : Async A := fun st => (st, Return a).

Definition throw {A} (e : JsError) : Async A := fun st => (st, Throw e).

Definition bind {A B} (m : Async A) (k : A -> Async B) : Async B :=
  fun st =>
    match m st with
    | (st', Return a) => k a st'
    | (st', Throw e) => (st', Throw e)
    end.

(** [try { body } catch (error) { handler }]. *)
Definition tryCatch {A} (body : Async A) (handler : JsError -> Async A) : Async A :=
  fun st =>
    match body st with
    | (st', Return a) => (st', Return a)
    | (st', Throw e) => handler e st'
    end.

(** A call to a collaborator: the world moves and the call is traced. *)
Definition external {A} (ev : event) (step : World -> World * result A) : Async A :=
  fun st =>
    let (w, r) := step (world st) in
    (mkState w (trace st ++ [ev]), r).

Definition callGenerateContent (prompt : jsstring) : Async jsstring :=
  external (EvGenerateContent prompt) (generateContent prompt).

Definition callAxiosGet (url : jsstring) : Async bytes :=
  external (EvAxiosGet url) (axiosGet url).

Definition callPathExists (path : jsstring) : Async bool :=
  external (EvPathExists path)
    (fun w => let (w', b) := pathExists path w in (w', Return b)).

Definition callReadFile (path : jsstring) : Async bytes :=
  external (EvReadFile path) (readFile path).

Definition callPdf (buffer : bytes) : Async pdfData :=
  external (EvPdf buffer) (pdf buffer).

End Monad.

Declare Scope async_scope.
Delimit Scope async_scope with async.
Notation "x <- m ;; k" := (bind m (fun x => k))
  (at level 61, m at next level, right associativity) : async_scope.

End Runtime.
Import Runtime.
Local Open Scope async_scope.

(* ===================================================================== *)
(** * services/geminiService.js *)
(* ===================================================================== *)

Module GeminiService.
Section WithExternals.
Context {E : Externals}.

(** The template literal of [generateAnswer]: the empty string is falsy,
    so an empty [documentContent] selects the second template. *)
Definition buildPrompt (question documentContent : jsstring) : jsstring :=
  match documentContent with
  | _ :: _ =>
      lit "Based on the following document content, answer the question."
        ++ nl ++ nl ++ lit "Document Content:" ++ nl ++ documentContent
        ++ nl ++ nl ++ lit "Question: " ++ question
        ++ nl ++ nl ++ lit "Answer:"
  | [] => lit "Answer the following question: " ++ question
  end.

(** [generateAnswer(question, documentContent)]. *)
Definition generateAnswer (question documentContent : jsstring) : Async jsstring :=
  tryCatch
    (let prompt := buildPrompt question documentContent in
     text <- callGenerateContent prompt ;;
     ret text)
    (fun error =>
       throw (newError (lit "Gemini API error: " ++ message error))).

(** The answer pushed when [generateAnswer] throws. *)
Definition fallbackAnswer (question : jsstring) : jsstring :=
  lit "Sorry, I couldn't process this question: " ++ question.

(** The [for] loop of [processQuestions], from the questions still to be
    processed and the [answers] array built so far. *)
Fixpoint processLoop (questions : list jsstring) (documentContent : jsstring)
    (answers : list jsstring) : Async (list jsstring) :=
  match questions with
  | [] => ret answers
  | question :: rest =>
      answers' <-
        tryCatch
          (answer <- generateAnswer question documentContent ;;
           ret (answers ++ [answer]))
          (fun error => ret (answers ++ [fallbackAnswer question])) ;;
      processLoop rest documentContent answers'
  end.

(** [processQuestions(questions, documentContent)]. *)
Definition processQuestions (questions : list jsstring) (documentContent : jsstring)
    : Async (list jsstring) :=
  processLoop questions documentContent [].

End WithExternals.
End GeminiService.

(* ===================================================================== *)
(** * services/pdfService.js *)
(* ===================================================================== *)

Module PdfService.
Section WithExternals.
Context {E : Externals}.

(** The statements that follow [const data = await pdf(pdfBuffer)] in both
    entry points: [text.length] is read for the log entry (a [TypeError]
    when [data.text] holds no string), then the emptiness test. *)
Definition checkText (data : pdfData) : Async jsstring :=
  match text data with
  | None => throw (typeError (lit "length"))
  | Some text =>
      if match text with [] => true | _ => false end
         || Nat.eqb (length (trim text)) 0
      then throw (newError (lit "PDF contains no extractable text"))
      else ret text
  end.

Definition codeIs (error : JsError) (c : jsstring) : bool :=
  match code error with
  | Some c' => jsstring_eqb c' c
  | None => false
  end.

(** [extractTextFromUrl(pdfUrl)]. *)
Definition extractTextFromUrl (pdfUrl : jsstring) : Async jsstring :=
  tryCatch
    (responseData <- callAxiosGet pdfUrl ;;
     let pdfBuffer := responseData in
     data <- callPdf pdfBuffer ;;
     checkText data)
    (fun error =>
       match response error with
       | Some (status, statusText) =>
           throw (newError (lit "Failed to download PDF: " ++ decimal status
                              ++ lit " " ++ statusText))
       | None =>
           if codeIs error (lit "ENOTFOUND") then
             throw (newError (lit "PDF document not found at the provided URL"))
           else if codeIs error (lit "ETIMEDOUT") then
             throw (newError (lit "Timeout while downloading PDF document"))
           else
             throw (newError (lit "PDF processing failed: " ++ message error))
       end).

(** [extractTextFromFile(filePath)]. *)
Definition extractTextFromFile (filePath : jsstring) : Async jsstring :=
  tryCatch
    (exists_ <- callPathExists filePath ;;
     if negb exists_ then throw (newError (lit "PDF file not found"))
     else
       pdfBuffer <- callReadFile filePath ;;
       data <- callPdf pdfBuffer ;;
       checkText data)
    (fun error =>
       throw (newError (lit "PDF file processing failed: " ++ message error))).

End WithExternals.
End PdfService.

(* ===================================================================== *)
(** * services/ragService.js *)
(* ===================================================================== *)

Module RagService.
Section WithExternals.
Context {E : Externals}.

Definition documentProcessingError (msg : jsstring) : JsError :=
  mkJsError (lit "DocumentProcessingError") msg None None.

(** [processDocumentAndQuestions(documentUrl, questions)]. *)
Definition processDocumentAndQuestions (documentUrl : jsstring)
    (questions : list jsstring) : Async (list jsstring) :=
  tryCatch
    (documentContent <-
       tryCatch (PdfService.extractTextFromUrl documentUrl)
                (fun pdfError => ret []) ;;
     answers <- GeminiService.processQuestions questions documentContent ;;
     ret answers)
    (fun error =>
       throw (documentProcessingError
                (lit "Failed to process document and questions"))).

(** [processFileAndQuestions(filePath, questions)]. *)
Definition processFileAndQuestions (filePath : jsstring)
    (questions : list jsstring) : Async (list jsstring) :=
  tryCatch
    (documentContent <- PdfService.extractTextFromFile filePath ;;
     answers <- GeminiService.processQuestions questions documentContent ;;
     ret answers)
    (fun error =>
       throw (documentProcessingError
                (lit "Failed to process file and questions"))).

End WithExternals.
End RagService.

(* ===================================================================== *)
(** * The part of Joi the schemas use *)
(* ===================================================================== *)

Module Joi.

Inductive pathKey :=
| Key (k : jsstring)
| Index (i : nat).

(** One entry of [error.details]. [message] is the text given for the
    error type by a [.messages()] override in scope; [None] stands for
    Joi's built-in template. *)
Record detail := mkDetail {
  path : list pathKey;
  type : jsstring;
  message : option jsstring;
  contextValue : jsval
}.

Inductive stringRule :=
| StrMin (limit : nat)
| StrMax (limit : nat)
| StrUri (scheme : list jsstring) (allowRelative : bool).

Inductive arrayRule :=
| ArrMin (limit : nat)
| ArrMax (limit : nat).

Definition messages := list (jsstring * jsstring).

(** [Joi.string()...], [Joi.array().items(s)...] and [Joi.object({...})],
    each with its rules in the order they were chained, its presence flag
    ([.required()]) and its [.messages()]. *)
Inductive schema :=
| JString (rules : list stringRule) (required : bool) (msgs : messages)
| JArray (items : schema) (rules : list arrayRule) (required : bool) (msgs : messages)
| JObject (keys : list (jsstring * schema)).

Definition isRequired (s : schema) : bool :=
  match s with
  | JString _ r _ => r
  | JArray _ _ r _ => r
  | JObject _ => false
  end.

Fixpoint lookupMessage (msgs : messages) (type : jsstring) : option jsstring :=
  match msgs with
  | [] => None
  | (t, m) :: rest => if jsstring_eqb t type then Some m else lookupMessage rest type
  end.

Section Validate.

(** The [string.uri] rule is library code (an RFC 3986 expression built
    from the [scheme] and [allowRelative] options); validation is
    parametric in it. *)
Variable uriRule : list jsstring -> bool -> jsstring -> bool.

Definition report (msgs : messages) (path : list pathKey) (type : jsstring)
    (v : jsval) : detail :=
  mkDetail path type (lookupMessage msgs type) v.

Definition checkStringRule (msgs : messages) (path : list pathKey)
    (s : jsstring) (r : stringRule) : list detail :=
  match r with
  | StrMin limit =>
      if Nat.ltb (length s) limit then [report msgs path (lit "string.min") (VStr s)] else []
  | StrMax limit =>
      if Nat.ltb limit (length s) then [report msgs path (lit "string.max") (VStr s)] else []
  | StrUri scheme allowRelative =>
      if uriRule scheme allowRelative s then [] else [report msgs path (lit "string.uri") (VStr s)]
  end.

Definition checkArrayRule (msgs : messages) (path : list pathKey)
    (items : list jsval) (r : arrayRule) : list detail :=
  match r with
  | ArrMin limit =>
      if Nat.ltb (length items) limit then [report msgs path (lit "array.min") (VArr items)] else []
  | ArrMax limit =>
      if Nat.ltb limit (length items) then [report msgs path (lit "array.max") (VArr items)] else []
  end.

Definition noErrors (ds : list detail) : bool :=
  match ds with [] => true | _ => false end.

(** The loop of the [items] rule over the elements, from index [i] on:
    the errors of each element. An [undefined] element is [array.sparse];
    any other element is validated against the item schema. *)
Fixpoint eachItem (validateItem : list pathKey -> jsval -> list detail)
    (msgs : messages) (path : list pathKey) (i : nat) (elems : list jsval)
    : list (list detail) :=
  match elems with
  | [] => []
  | VUndefined :: rest =>
      [report msgs (path ++ [Index i]) (lit "array.sparse") VUndefined]
        :: eachItem validateItem msgs path (S i) rest
  | e :: rest =>
      validateItem (path ++ [Index i]) e :: eachItem validateItem msgs path (S i) rest
  end.

(** [schema.validate(value, { abortEarly: false, allowUnknown: false })]:
    the details collected. [inherited] holds the [.messages()] of the
    enclosing schemas; a schema's own messages take precedence.
    - A missing value is an error only under [.required()].
    - A value of the wrong base type gives the base error and the rules
      are not run; otherwise every rule runs and all errors are kept.
    - [items]: the errors of every element, and
      [array.includesRequiredUnknowns] when the item schema is
      [.required()] and no element matched it.
    - Object: each declared key is validated against the value found
      under it, then every own key that is not declared is
      [object.unknown]. *)
Fixpoint validate (s : schema) (inherited : messages) (path : list pathKey)
    (v : jsval) {struct s} : list detail :=
  match s with
  | JString rules required own =>
      let msgs := own ++ inherited in
      match v with
      | VUndefined =>
          if required then [report msgs path (lit "any.required") v] else []
      | VStr [] => [report msgs path (lit "string.empty") v]
      | VStr str => flat_map (checkStringRule msgs path str) rules
      | _ => [report msgs path (lit "string.base") v]
      end
  | JArray items rules required own =>
      let msgs := own ++ inherited in
      match v with
      | VUndefined =>
          if required then [report msgs path (lit "any.required") v] else []
      | VArr elems =>
          let perItem :=
            eachItem (fun p e => validate items msgs p e) msgs path 0 elems in
          let missed :=
            if isRequired items && negb (existsb noErrors perItem)
            then [report msgs path (lit "array.includesRequiredUnknowns") v]
            else [] in
          concat perItem ++ missed ++ flat_map (checkArrayRule msgs path elems) rules
      | _ => [report msgs path (lit "array.base") v]
      end
  | JObject keys =>
      match v with
      | VUndefined => []
      | VObj fields =>
          let children :=
            flat_map (fun ks : jsstring * schema =>
                        validate (snd ks) inherited (path ++ [Key (fst ks)])
                                 (getField fields (fst ks)))
                     keys in
          let declared k := existsb (fun ks => jsstring_eqb (fst ks) k) keys in
          let unknown :=
            flat_map (fun kv : jsstring * jsval =>
                        if declared (fst kv) then []
                        else [report inherited (path ++ [Key (fst kv)])
                                (lit "object.unknown") (snd kv)])
                     fields in
          children ++ unknown
      | _ => [report inherited path (lit "object.base") v]
      end
  end.

End Validate.

End Joi.

(* ===================================================================== *)
(** * utils/validator.js *)
(* ===================================================================== *)

Module Validator.
Import Joi.

(** [runRequestSchema]. *)
Definition runRequestSchema : schema :=
  JObject
    [ (lit "documents",
       JString [StrUri [lit "http"; lit "https"] false] true
         [ (lit "string.uri", lit "Documents must be a valid HTTP/HTTPS URL");
           (lit "any.required", lit "Documents field is required") ]);
      (lit "questions",
       JArray
         (JString [StrMin 5; StrMax 1000] true
            [ (lit "string.min", lit "Each question must be at least 5 characters long");
              (lit "string.max", lit "Each question must not exceed 1000 characters");
              (lit "any.required", lit "Questions cannot be empty") ])
         [ArrMin 1; ArrMax 10] true
         [ (lit "array.min", lit "At least one question is required");
           (lit "array.max", lit "Maximum 10 questions allowed per request");
           (lit "any.required", lit "Questions field is required") ]) ].

(** One element of the [errors] array of a validation result. *)
Record fieldError := mkFieldError {
  field : jsstring;
  message : option jsstring;
  value : jsval
}.

Record validationResult := mkValidationResult {
  isValid : bool;
  errors : option (list fieldError);
  validated : option jsval
}.

Definition pathKeyText (k : pathKey) : jsstring :=
  match k with
  | Key k => k
  | Index i => decimal (N.of_nat i)
  end.

(** [detail => ({ field: detail.path.join('.'), message, value })]. *)
Definition toFieldError (d : detail) : fieldError :=
  mkFieldError (join (lit ".") (map pathKeyText (Joi.path d)))
               (Joi.message d) (contextValue d).

(** Whether the property read [v.key] throws: it does on [undefined] and
    on [null]. *)
Definition readThrows (v : jsval) : bool :=
  match v with
  | VUndefined | VNull => true
  | _ => false
  end.

(** [v.key] for a value on which the read does not throw. *)
Definition readProp (v : jsval) (key : jsstring) : jsval :=
  match v with
  | VObj fields => getField fields key
  | _ => VUndefined
  end.

Section WithUriRule.
Variable uriRule : list jsstring -> bool -> jsstring -> bool.

(** [validateRequest(requestBody)]. With no validation error the function
    reads [value.documents] and [value.questions.length] for its log
    entry; a [TypeError] there lands in the [catch] block. *)
Definition validateRequest (requestBody : jsval) : validationResult :=
  match validate uriRule runRequestSchema [] [] requestBody with
  | (_ :: _) as details =>
      mkValidationResult false (Some (map toFieldError details)) None
  | [] =>
      let value := requestBody in
      if readThrows value || readThrows (readProp value (lit "questions")) then
        mkValidationResult false
          (Some [mkFieldError (lit "validation")
                   (Some (lit "Validation processing failed"))
                   (VStr (JS.message (typeError
                      (if readThrows value then lit "documents" else lit "length"))))])
          None
      else
        mkValidationResult true None (Some value)
  end.

End WithUriRule.

(** The error types of [uploadRequestSchema]'s custom rule. *)
Inductive uploadQuestionsError :=
| invalidJSON
| invalidFormat
| empty
| tooMany
| invalidType
| tooShort
| tooLong.

(** The [for (const question of parsed)] loop of the custom rule: it
    returns at the first offending element. *)
Fixpoint checkUploadQuestions (parsed : list jsval) : option uploadQuestionsError :=
  match parsed with
  | [] => None
  | VStr question :: rest =>
      if Nat.ltb (length question) 5 then Some tooShort
      else if Nat.ltb 1000 (length question) then Some tooLong
      else checkUploadQuestions rest
  | _ :: _ => Some invalidType
  end.

(** The custom rule on the [questions] field of [uploadRequestSchema],
    from the outcome of [JSON.parse(value)]: the error raised through
    [helpers.error], or the parsed array. *)
Definition uploadQuestionsRule (parsed : result jsval)
    : uploadQuestionsError + list jsval :=
  match parsed with
  | Throw _ => inl invalidJSON
  | Return (VArr parsed) =>
      if Nat.eqb (length parsed) 0 then inl empty
      else if Nat.ltb 10 (length parsed) then inl tooMany
      else match checkUploadQuestions parsed with
           | Some e => inl e
           | None => inr parsed
           end
  | Return _ => inl invalidFormat
  end.

(** The [options] argument of [sanitizeString]. [maxLength] is [None]
    when the property is absent; numbers are integers. *)
Record sanitizeOptions := mkSanitizeOptions {
  maxLength : option Z;
  allowControlChars : bool
}.

(** The class [[\x00-\x08\x0B\x0C\x0E-\x1F\x7F]]. *)
Definition isControlChar (c : codeUnit) : bool :=
  ((c <=? 8) || (c =? 11) || (c =? 12) || ((14 <=? c) && (c <=? 31)) || (c =? 127))%N.

(** [sanitizeString(input, options)]. [options.maxLength || 1000] takes
    the default when the option is absent or is [0]. *)
Definition sanitizeString (input : jsval) (options : sanitizeOptions) : jsstring :=
  match input with
  | VStr input =>
      let sanitized := input in
      let sanitized := trim sanitized in
      let sanitized := removeAll (N.eqb 0) sanitized in
      let maxLength :=
        match maxLength options with
        | None | Some 0%Z => 1000%Z
        | Some m => m
        end in
      let sanitized :=
        if (Z.of_nat (length sanitized) >? maxLength)%Z
        then substring sanitized 0 (Some maxLength)
        else sanitized in
      let sanitized :=
        if negb (allowControlChars options)
        then removeAll isControlChar sanitized
        else sanitized in
      sanitized
  | _ => []
  end.

End Validator.

(* ===================================================================== *)
(** * routes/hackrx.js *)
(* ===================================================================== *)

Module Routes.

(** [req.file], as multer leaves it. *)
Record uploadedFile := mkUploadedFile {
  path : jsstring;
  filename : jsstring;
  size : N
}.

(** How the checks at the head of the upload handler end: with a response
    of the handler's own, or with the call
    [ragService.processFileAndQuestions(filePath, parsedQuestions)]. *)
Inductive uploadStep :=
| Reply (status : N) (error message : jsstring)
| ProcessFile (filePath : jsstring) (parsedQuestions : list jsval).

(** The [POST /hackrx/upload] handler up to the call of the pipeline.
    [file] is [req.file] and [parsed] the outcome of
    [JSON.parse(req.body.questions)]. *)
Definition uploadHandler (file : option uploadedFile) (parsed : result jsval)
    : uploadStep :=
  match file with
  | None => Reply 400 (lit "No file provided") (lit "Please upload a PDF file")
  | Some file =>
      match parsed with
      | Throw parseError =>
          Reply 400 (lit "Invalid questions format")
                    (lit "Questions must be a valid JSON array")
      | Return (VArr ((_ :: _) as parsedQuestions)) =>
          ProcessFile (path file) parsedQuestions
      | Return _ =>
          Reply 400 (lit "Validation Error")
                    (lit "Questions must be a non-empty array")
      end
  end.

End Routes.

(* ===================================================================== *)
(** * middleware/auth.js: the other exports *)
(* ===================================================================== *)

Module AuthHelpers.

(** What the middlewares store in [req.auth] ([timestamp] left out). *)
Record authInfo := mkAuthInfo {
  authenticated : bool;
  tokenType : jsstring
}.

(** [optionalAuthMiddleware(req, res, next)]: [next()] is called on every
    path (also from the [catch] block); the result is what [req.auth]
    holds afterwards, [None] when it was not set. *)
Definition optionalAuthMiddleware (authHeader expectedToken : option jsstring)
    : option authInfo :=
  match authHeader with
  | Some ((_ :: _) as authHeader) =>
      if startsWith authHeader (lit "Bearer ") then
        let token := substring authHeader 7 None in
        (* token === expectedToken *)
        match expectedToken with
        | Some expected =>
            if jsstring_eqb token expected
            then Some (mkAuthInfo true (lit "Bearer"))
            else None
        | None => None
        end
      else None
  | _ => None
  end.

(** A string-or-undefined value inside a template literal. *)
Definition interpolate (v : option jsstring) : jsstring :=
  match v with
  | Some s => s
  | None => lit "undefined"
  end.

Record authHeaders := mkAuthHeaders {
  Authorization : jsstring;
  ContentType : jsstring
}.

(** [getAuthHeaders()], from [process.env.AUTH_BEARER_TOKEN]. *)
Definition getAuthHeaders (expectedToken : option jsstring) : authHeaders :=
  mkAuthHeaders (lit "Bearer " ++ interpolate expectedToken)
                (lit "application/json").

(** [validateToken(token)]: [token === expectedToken]. *)
Definition validateToken (token : jsstring) (expectedToken : option jsstring) : bool :=
  match expectedToken with
  | Some expected => jsstring_eqb token expected
  | None => false
  end.

End AuthHelpers.

(* ===================================================================== *)
(** * config/config.js and the start of server.js *)
(* ===================================================================== *)

Module Config.

(** [process.env]: names and their string values. *)
Definition environment := list (jsstring * jsstring).

(** [process.env[name]]. *)
Fixpoint getenv (env : environment) (name : jsstring) : option jsstring :=
  match env with
  | [] => None
  | (k, v) :: rest => if jsstring_eqb k name then Some v else getenv rest name
  end.

(** Truthiness of [process.env[name]]: set, and not the empty string. *)
Definition isSet (env : environment) (name : jsstring) : bool :=
  match getenv env name with
  | Some (_ :: _) => true
  | _ => false
  end.

Definition REQUIRED_ENV_VARS : list jsstring :=
  [lit "GEMINI_API_KEY"; lit "AUTH_BEARER_TOKEN"].

(** [validateEnvironment()]. *)
Definition validateEnvironment (env : environment) : result unit :=
  let missing := filter (fun varName => negb (isSet env varName)) REQUIRED_ENV_VARS in
  if Nat.ltb 0 (length missing) then
    Throw (newError (lit "Missing required environment variables: "
                       ++ join (lit ", ") missing))
  else Return tt.

(** The constructor of [GeminiService] (services/geminiService.js), run
    when the module is first required: the test on the API key (building
    the client and the model handle after it does not depend on the
    environment). *)
Definition newGeminiService (env : environment) : result unit :=
  if negb (isSet env (lit "GEMINI_API_KEY"))
  then Throw (newError (lit "GEMINI_API_KEY is required"))
  else Return tt.

(** The start of server.js: [require('./routes/hackrx')] loads
    ragService and with it geminiService, whose last line constructs the
    service; [validateEnvironment()] is called after the requires. *)
Definition serverStart (env : environment) : result unit :=
  match newGeminiService env with
  | Throw e => Throw e
  | Return _ => validateEnvironment env
  end.

End Config.

(* ===================================================================== *)
(** * utils/validator.js: validateAndSanitizeQuestions *)
(* ===================================================================== *)

Module QuestionSanitizer.
Import Validator.

(** The three shapes of the returned object:
    [{ isValid: false, error }], [{ isValid: false, errors }] and
    [{ isValid: true, questions }]. *)
Inductive questionsResult :=
| Invalid (error : jsstring)
| InvalidItems (errors : list jsstring)
| Valid (questions : list jsstring).

(** The [for] loop, from index [i] on, with the two arrays built so
    far. *)
Fixpoint sanitizeLoop (i : nat) (questions : list jsval)
    (sanitizedQuestions errors : list jsstring) : list jsstring * list jsstring :=
  match questions with
  | [] => (sanitizedQuestions, errors)
  | question :: rest =>
      match question with
      | VStr _ =>
          let sanitized := sanitizeString question (mkSanitizeOptions (Some 1000%Z) false) in
          if Nat.ltb (length sanitized) 5 then
            sanitizeLoop (S i) rest sanitizedQuestions
              (errors ++ [lit "Question " ++ decimal (N.of_nat (i + 1))
                            ++ lit ": Must be at least 5 characters long"])
          else
            sanitizeLoop (S i) rest (sanitizedQuestions ++ [sanitized]) errors
      | _ =>
          sanitizeLoop (S i) rest sanitizedQuestions
            (errors ++ [lit "Question " ++ decimal (N.of_nat (i + 1))
                          ++ lit ": Must be a string"])
      end
  end.

(** [validateAndSanitizeQuestions(questions)]. *)
Definition validateAndSanitizeQuestions (questions : jsval) : questionsResult :=
  match questions with
  | VArr questions =>
      if Nat.eqb (length questions) 0 then
        Invalid (lit "At least one question is required")
      else if Nat.ltb 10 (length questions) then
        Invalid (lit "Maximum 10 questions allowed")
      else
        let (sanitizedQuestions, errors) := sanitizeLoop 0 questions [] [] in
        if Nat.ltb 0 (length errors) then InvalidItems errors
        else Valid sanitizedQuestions
  | _ => Invalid (lit "Questions must be an array")
  end.

End QuestionSanitizer.

(* ===================================================================== *)
(** * utils/fileUtils.js: sanitizeFilename *)
(* ===================================================================== *)

Module FileUtils.

Definition underscore : codeUnit := 95%N.

(** The class of the first [replace]: the characters less-than,
    greater-than, colon, double quote, slash, backslash, bar, question
    mark and star, and the code units 0 to 31. *)
Definition isUnsafe (c : codeUnit) : bool :=
  (existsb (N.eqb c) [60; 62; 58; 34; 47; 92; 124; 63; 42] || (c <=? 31))%N.

(** [s.replace(/[class]/g, '_')]: each code unit of the class becomes an
    underscore. *)
Definition replaceEach (inClass : codeUnit -> bool) (s : jsstring) : jsstring :=
  map (fun c => if inClass c then underscore else c) s.

(** [s.replace(/[class]+/g, '_')]: each maximal run of code units of the
    class becomes one underscore. [inRun] tells that the code unit before
    was of the class. *)
Fixpoint replaceRuns (inClass : codeUnit -> bool) (inRun : bool) (s : jsstring)
    : jsstring :=
  match s with
  | [] => []
  | c :: s' =>
      if inClass c then
        if inRun then replaceRuns inClass true s'
        else underscore :: replaceRuns inClass true s'
      else c :: replaceRuns inClass false s'
  end.

Definition isUnderscore (c : codeUnit) : bool := N.eqb c underscore.

(** The trailing run of code units of the class removed. *)
Fixpoint dropWhileEnd (inClass : codeUnit -> bool) (s : jsstring) : jsstring :=
  match s with
  | [] => []
  | c :: s' =>
      match dropWhileEnd inClass s' with
      | [] => if inClass c then [] else [c]
      | kept => c :: kept
      end
  end.

(** [s.replace(/^_+|_+$/g, '')]. *)
Definition stripUnderscores (s : jsstring) : jsstring :=
  dropWhileEnd isUnderscore (dropWhile isUnderscore s).

(** [sanitizeFilename(filename)]. The guard takes [undefined], the empty
    string and every value that is not a string to ['unnamed']; so does
    the final [|| 'unnamed'] when nothing is left. [\s] is the white
    space [trim] strips. *)
Definition sanitizeFilename (filename : jsval) : jsstring :=
  match filename with
  | VStr ((_ :: _) as filename) =>
      let replaced := replaceEach isUnsafe filename in
      let replaced := replaceRuns isWhiteSpace false replaced in
      let replaced := replaceRuns isUnderscore false replaced in
      let replaced := stripUnderscores replaced in
      let replaced := substring replaced 0 (Some 100%Z) in
      match replaced with
      | [] => lit "unnamed"
      | _ => replaced
      end
  | _ => lit "unnamed"
  end.

End FileUtils.

(* ===================================================================== *)
(** * middleware/errorHandler.js *)
(* ===================================================================== *)

Module ErrorHandler.

(** [String.prototype.includes]. *)
Fixpoint includes (s sub : jsstring) : bool :=
  startsWith s sub
  || match s with
     | [] => false
     | _ :: s' => includes s' sub
     end.

(** Truthiness of a value. *)
Definition truthy (v : jsval) : bool :=
  match v with
  | VUndefined | VNull | VBool false | VNum 0%Z | VStr [] => false
  | _ => true
  end.

(** An error as the handler reads it: [name], [message] and [code] (in
    [base]), and the properties [status], [retryAfter], [details] and
    [errors], [None] or [VUndefined] when absent. *)
Record appError := mkAppError {
  base : JsError;
  status : option Z;
  retryAfter : option Z;
  details : jsval;
  errors : jsval
}.

(** The JSON body sent ([timestamp] left out; [stack] tells whether the
    stack trace was added). *)
Record errorResponse := mkErrorResponse {
  error : jsstring;
  responseMessage : jsstring;
  requestId : jsstring;
  responseDetails : jsval;
  responseRetryAfter : option Z;
  stack : bool
}.

Inductive outcome :=
| Delegated (error : appError)
| Sent (statusCode : Z) (body : errorResponse).

(** [createError(message, statusCode = 500, name = 'CustomError')]. *)
Definition createError (message : jsstring) (statusCode : option Z)
    (name : option jsstring) : appError :=
  mkAppError
    (mkJsError (match name with Some n => n | None => lit "CustomError" end)
               message None None)
    (Some (match statusCode with Some s => s | None => 500%Z end))
    None VUndefined VUndefined.

Definition nameIs (error : appError) (n : jsstring) : bool :=
  jsstring_eqb (JS.name (base error)) n.

Definition mentions (error : appError) (word : jsstring) : bool :=
  includes (JS.message (base error)) word.

Definition codeIs (error : appError) (c : jsstring) : bool :=
  match JS.code (base error) with
  | Some c' => jsstring_eqb c' c
  | None => false
  end.

Definition orDefault (s fallback : jsstring) : jsstring :=
  match s with
  | [] => fallback
  | _ => s
  end.

(** [error.status && error.status >= 400 && error.status < 500]: the
    status when the test holds. *)
Definition clientStatus (error : appError) : option Z :=
  match status error with
  | Some s =>
      if negb (Z.eqb s 0) && (400 <=? s)%Z && (s <? 500)%Z then Some s else None
  | None => None
  end.

(** The chain of tests on the error: the status code and the [error],
    [message], [details] and [retryAfter] properties of the response. *)
Definition classify (error : appError)
    : Z * (jsstring * jsstring * jsval * option Z) :=
  let message := JS.message (base error) in
  if nameIs error (lit "ValidationError") then
    (400, (lit "Validation Error", message,
           (if truthy (details error) then details error else errors error), None))%Z
  else if nameIs error (lit "UnauthorizedError") || mentions error (lit "unauthorized") then
    (401, (lit "Unauthorized", lit "Authentication required or invalid credentials",
           VUndefined, None))%Z
  else if nameIs error (lit "ForbiddenError") || mentions error (lit "forbidden") then
    (403, (lit "Forbidden", lit "Access denied", VUndefined, None))%Z
  else if nameIs error (lit "NotFoundError") || mentions error (lit "not found") then
    (404, (lit "Not Found", orDefault message (lit "Resource not found"),
           VUndefined, None))%Z
  else if nameIs error (lit "RateLimitError") || mentions error (lit "rate limit") then
    (429, (lit "Too Many Requests", lit "Rate limit exceeded", VUndefined,
           Some (match retryAfter error with
                 | None | Some 0%Z => 900
                 | Some s => s
                 end)))%Z
  else
    match clientStatus error with
    | Some s =>
        (s, (orDefault (JS.name (base error)) (lit "Client Error"), message,
             VUndefined, None))
    | None =>
        if codeIs error (lit "LIMIT_FILE_SIZE") then
          (413, (lit "File Too Large", lit "Uploaded file exceeds maximum size limit",
                 VUndefined, None))%Z
        else if codeIs error (lit "ENOENT") then
          (404, (lit "File Not Found", lit "Requested file does not exist",
                 VUndefined, None))%Z
        else if codeIs error (lit "ECONNREFUSED") then
          (503, (lit "Service Unavailable", lit "External service connection failed",
                 VUndefined, None))%Z
        else
          (500, (lit "Internal Server Error", lit "An unexpected error occurred",
                 VUndefined, None))%Z
    end.

(** [errorHandler(error, req, res, next)]. [headersSent] is
    [res.headersSent], [reqId] is [req.id] and [nodeEnv] is
    [process.env.NODE_ENV]. In development the stack is added and
    [details] is replaced by the debugging object ([errno] and [syscall]
    are absent from the errors modelled). *)
Definition errorHandler (error : appError) (headersSent : bool)
    (reqId nodeEnv : option jsstring) : outcome :=
  if headersSent then Delegated error
  else
    let '(statusCode, (errorName, message, details, retryAfter)) := classify error in
    let requestId :=
      match reqId with
      | Some ((_ :: _) as id) => id
      | _ => lit "unknown"
      end in
    let development :=
      match nodeEnv with
      | Some env => jsstring_eqb env (lit "development")
      | None => false
      end in
    if development then
      Sent statusCode
        (mkErrorResponse errorName message requestId
           (VObj [(lit "originalError", VStr (JS.name (base error)));
                  (lit "code", match JS.code (base error) with
                               | Some c => VStr c
                               | None => VUndefined
                               end);
                  (lit "errno", VUndefined);
                  (lit "syscall", VUndefined)])
           retryAfter true)
    else
      Sent statusCode
        (mkErrorResponse errorName message requestId details retryAfter false).

End ErrorHandler.

(* ===================================================================== *)
(** * services/pdfService.js: validatePdfUrl *)
(* ===================================================================== *)

Module PdfUrlCheck.
Import ErrorHandler.

(** [validatePdfUrl(pdfUrl)], from the outcome of [axios.head]: the
    [content-type] header of the response ([None] when there is none), or
    the error thrown. *)
Definition validatePdfUrl (head : result (option jsstring)) : result bool :=
  match head with
  | Return contentType =>
      match contentType with
      | Some ((_ :: _) as contentType) =>
          if includes contentType (lit "pdf") then Return true
          else Throw (newError (lit "PDF URL validation failed: "
                                  ++ lit "URL does not point to a PDF document"))
      | _ =>
          Throw (newError (lit "PDF URL validation failed: "
                             ++ lit "URL does not point to a PDF document"))
      end
  | Throw error =>
      Throw (newError (lit "PDF URL validation failed: " ++ JS.message error))
  end.

End PdfUrlCheck.

(* ===================================================================== *)
(** * routes/hackrx.js: the handlers *)
(* ===================================================================== *)

Module HackrxRoutes.
Import Validator.

(** [fs.unlink], the one collaborator the routes call besides the
    services'. *)
Class FileSystem (E : Externals) := {
  unlink : jsstring -> World -> World * result unit
}.

(** What a handler sends: [200 { answers }], the 400 of a failed
    [validateRequest] with its [details], or a status with [error] and
    [message] ([timestamp] and [requestId] left out). *)
Inductive response :=
| Answers (answers : list jsstring)
| ValidationFailed (details : option (list fieldError))
| Failure (status : N) (error message : jsstring).

(** [fileFilter] of the multer configuration, on [file.mimetype]: the
    file is accepted, or the callback gets an error with [status] 400. *)
Definition fileFilter (mimetype : jsstring) : option ErrorHandler.appError :=
  if jsstring_eqb mimetype (lit "application/pdf") then None
  else Some (ErrorHandler.mkAppError (newError (lit "Only PDF files are allowed"))
               (Some 400%Z) None VUndefined VUndefined).

(** How the checks at the head of the [POST /hackrx/run] handler end:
    with a response, or with the call
    [ragService.processDocumentAndQuestions(documents, questions)]. *)
Inductive runStep :=
| RunReply (r : response)
| ProcessDocument (documents : jsval) (questions : list jsval).

Section WithUriRule.
Variable uriRule : list jsstring -> bool -> jsstring -> bool.

(** The [POST /hackrx/run] handler up to the call of the pipeline. The
    destructuring of [req.body] throws on [undefined] and [null], which
    the handler's [catch] answers with 500. *)
Definition runHandler (body : jsval) : runStep :=
  let validationResult := validateRequest uriRule body in
  if negb (isValid validationResult) then
    RunReply (ValidationFailed (errors validationResult))
  else if readThrows body then
    RunReply (Failure 500 (lit "Internal Server Error")
                (lit "Failed to process RAG request"))
  else
    let documents := readProp body (lit "documents") in
    let questions := readProp body (lit "questions") in
    match questions with
    | VArr ((_ :: _) as questions) =>
        if Nat.ltb 10 (length questions) then
          RunReply (Failure 400 (lit "Validation Error")
                      (lit "Maximum 10 questions allowed per request"))
        else ProcessDocument documents questions
    | _ =>
        RunReply (Failure 400 (lit "Validation Error")
                    (lit "Questions must be a non-empty array"))
    end.

End WithUriRule.

Section WithExternals.
Context {E : Externals}.

Definition nameIs (error : JsError) (n : jsstring) : bool :=
  jsstring_eqb (JS.name error) n.

(** The rest of the [POST /hackrx/run] handler, for a document URL and
    questions that are strings: the pipeline, the 200 response, and the
    [catch] block. *)
Definition runPipeline (documents : jsstring) (questions : list jsstring)
    : Async response :=
  tryCatch
    (answers <- RagService.processDocumentAndQuestions documents questions ;;
     ret (Answers answers))
    (fun error =>
       if nameIs error (lit "DocumentProcessingError") then
         ret (Failure 422 (lit "Document Processing Error") (JS.message error))
       else if nameIs error (lit "GeminiAPIError") then
         ret (Failure 502 (lit "AI Service Error")
                (lit "Failed to process questions with AI service"))
       else
         ret (Failure 500 (lit "Internal Server Error")
                (lit "Failed to process RAG request"))).

Context {F : FileSystem E}.

(** A call of [fs.unlink] inside its own [try]/[catch]: the world moves,
    the outcome is only logged. *)
Definition cleanup (filePath : jsstring) (st : State) : State :=
  mkState (fst (unlink filePath (world st))) (trace st).

(** What the rest of the upload handler did: the response sent, and the
    paths it passed to [fs.unlink]. *)
Record uploadOutcome := mkUploadOutcome {
  sent : response;
  unlinked : list jsstring
}.

(** The rest of the [POST /hackrx/upload] handler, for questions that are
    strings: the pipeline, the removal of the staged file and the 200
    response; in the [catch] block, the removal (guarded by
    [req.file.path], which the empty string fails) and the 500
    response. *)
Definition uploadPipeline (filePath : jsstring) (questions : list jsstring)
    (st : State) : State * uploadOutcome :=
  match RagService.processFileAndQuestions filePath questions st with
  | (st1, Return answers) =>
      (cleanup filePath st1, mkUploadOutcome (Answers answers) [filePath])
  | (st1, Throw error) =>
      let failure := Failure 500 (lit "Internal Server Error")
                       (lit "Failed to process uploaded file") in
      match filePath with
      | [] => (st1, mkUploadOutcome failure [])
      | _ => (cleanup filePath st1, mkUploadOutcome failure [filePath])
      end
  end.

End WithExternals.
End HackrxRoutes.

(* ===================================================================== *)
(** * Concrete collaborators, to run the code on examples *)
(* ===================================================================== *)

(** A recogniser for URIs of the form
    [scheme://host[:port][/path][?query][#fragment]] over the character
    classes of RFC 3986. Every string it accepts is one Joi's [uri] rule
    accepts for the same schemes; it leaves out user information, IP
    literals and URIs without an authority. The theorems about
    [validateRequest] hold for any rule; this one runs the examples. *)
Module UriModel.

Definition among (cls : jsstring) (c : codeUnit) : bool := existsb (N.eqb c) cls.

Definition isDigit (c : codeUnit) : bool := ((48 <=? c) && (c <=? 57))%N.

Definition isAlpha (c : codeUnit) : bool :=
  (((65 <=? c) && (c <=? 90)) || ((97 <=? c) && (c <=? 122)))%N.

Definition isUnreserved (c : codeUnit) : bool :=
  isAlpha c || isDigit c || among (lit "_-.~") c.

Definition isSubDelim (c : codeUnit) : bool := among (lit "!$&'()*+,;=") c.

Definition isRegName (c : codeUnit) : bool :=
  isUnreserved c || among (lit "%") c || isSubDelim c.

Definition isPchar (c : codeUnit) : bool := isRegName c || among (lit ":@") c.

(** The longest prefix free of [stop], and what follows it. *)
Fixpoint break (stop : codeUnit -> bool) (s : jsstring) : jsstring * jsstring :=
  match s with
  | [] => ([], [])
  | c :: s' =>
      if stop c then ([], s)
      else let (a, b) := break stop s' in (c :: a, b)
  end.

Fixpoint stripPrefix (prefix s : jsstring) {struct prefix} : option jsstring :=
  match prefix, s with
  | [], _ => Some s
  | p :: prefix', c :: s' => if N.eqb c p then stripPrefix prefix' s' else None
  | _ :: _, [] => None
  end.

Definition afterMark (allowed : codeUnit -> bool) (s : jsstring) : bool :=
  match s with
  | [] => true
  | _ :: body => forallb allowed body
  end.

Definition uriRule (scheme : list jsstring) (allowRelative : bool) (s : jsstring) : bool :=
  existsb
    (fun sch =>
       match stripPrefix (sch ++ lit "://") s with
       | None => false
       | Some rest =>
           let (authority, afterAuthority) := break (among (lit "/?#")) rest in
           let (host, port) := break (among (lit ":")) authority in
           let (pathPart, afterPath) := break (among (lit "?#")) afterAuthority in
           let (query, fragment) :=
             match afterPath with
             | 63%N :: _ => break (among (lit "#")) afterPath
             | _ => ([], afterPath)
             end in
           let inQuery c := isPchar c || among (lit "/?") c in
           Nat.leb 1 (length host) && Nat.leb (length host) 255
             && forallb isRegName host
             && afterMark isDigit port
             && forallb (fun c => isPchar c || among (lit "/") c) pathPart
             && afterMark inQuery query
             && afterMark inQuery fragment
       end)
    scheme.

End UriModel.

(** A world that follows a script: the model's replies are consumed in
    order (an exhausted script is a quota error), remote documents and
    files are looked up in tables, and a document's text is its content
    (an empty buffer does not parse). *)
Module Scripted.

Record script := mkScript {
  replies : list (result jsstring);
  remote : list (jsstring * bytes);
  disk : list (jsstring * bytes)
}.

Fixpoint lookup (table : list (jsstring * bytes)) (key : jsstring) : option bytes :=
  match table with
  | [] => None
  | (k, b) :: rest => if jsstring_eqb k key then Some b else lookup rest key
  end.

Definition scripted : Externals := {|
  World := script;
  generateContent := fun prompt w =>
    match replies w with
    | [] => (w, Throw (newError (lit "429 Too Many Requests")))
    | r :: rest => (mkScript rest (remote w) (disk w), r)
    end;
  axiosGet := fun url w =>
    match lookup (remote w) url with
    | Some b => (w, Return b)
    | None =>
        (w, Throw (mkJsError (lit "Error") (lit "getaddrinfo ENOTFOUND")
                     None (Some (lit "ENOTFOUND"))))
    end;
  pathExists := fun path w =>
    (w, match lookup (disk w) path with Some _ => true | None => false end);
  readFile := fun path w =>
    match lookup (disk w) path with
    | Some b => (w, Return b)
    | None =>
        (w, Throw (mkJsError (lit "Error") (lit "ENOENT: no such file or directory")
                     None (Some (lit "ENOENT"))))
    end;
  pdf := fun buffer w =>
    match buffer with
    | [] => (w, Throw (newError (lit "Invalid PDF structure")))
    | _ => (w, Return (mkPdfData (Some buffer) 1))
    end
|}.

Definition start (s : script) : @State scripted := @mkState scripted s [].

End Scripted.

(* ===================================================================== *)
(** * Notions the properties are stated with *)
(* ===================================================================== *)

Module Spec.
Import Validator.

Definition httpSchemes : list jsstring := [lit "http"; lit "https"].

Section WithUriRule.
Variable uriRule : list jsstring -> bool -> jsstring -> bool.

(** The specification's rule: [documents] is an absolute http/https URL
    string and [questions] is an array of 1 to 10 strings, each of
    trimmed length 5 to 1000. *)
Definition specAccepts (body : jsval) : bool :=
  match readProp body (lit "documents"), readProp body (lit "questions") with
  | VStr documents, VArr questions =>
      uriRule httpSchemes false documents
        && Nat.leb 1 (length questions) && Nat.leb (length questions) 10
        && forallb (fun q => match q with
                             | VStr q => Nat.leb 5 (length (trim q))
                                           && Nat.leb (length (trim q)) 1000
                             | _ => false
                             end) questions
  | _, _ => false
  end.

Definition isQuestion (q : jsval) : bool :=
  match q with
  | VStr q => Nat.leb 5 (length q) && Nat.leb (length q) 1000
  | _ => false
  end.

Definition isDeclaredKey (k : jsstring) : bool :=
  jsstring_eqb (lit "documents") k || jsstring_eqb (lit "questions") k.

(** What [runRequestSchema] accepts: an object with no key besides
    [documents] and [questions], whose [documents] is a non-empty string
    the URI rule accepts and whose [questions] is an array of 1 to 10
    strings, each of length 5 to 1000 (no trimming). *)
Definition schemaAccepts (body : jsval) : bool :=
  match body with
  | VObj fields =>
      forallb (fun kv : jsstring * jsval => isDeclaredKey (fst kv)) fields
        && match getField fields (lit "documents") with
           | VStr ((_ :: _) as documents) => uriRule httpSchemes false documents
           | _ => false
           end
        && match getField fields (lit "questions") with
           | VArr questions =>
               Nat.leb 1 (length questions) && Nat.leb (length questions) 10
                 && forallb isQuestion questions
           | _ => false
           end
  | _ => false
  end.

End WithUriRule.

(** The keys [runRequestSchema] declares, with their schemas. *)
Definition runRequestKeys : list (jsstring * Joi.schema) :=
  match runRequestSchema with
  | Joi.JObject keys => keys
  | _ => []
  end.

(** The limit [sanitizeString] applies: the configured [maxLength], or
    1000 when the option is absent or zero. *)
Definition effectiveMaxLength (options : sanitizeOptions) : Z :=
  match maxLength options with
  | None | Some 0%Z => 1000%Z
  | Some m => m
  end.

(** The parsed text is absent, or empty once trimmed. *)
Definition isBlank (text : option jsstring) : bool :=
  match text with
  | None => true
  | Some text => Nat.eqb (length (trim text)) 0
  end.

Section WithExternals.
Import GeminiService.
Context {E : Externals}.

(** One turn of the loop of [processQuestions]: the answer pushed is the
    text [generateAnswer] returned, or the fallback when it threw. *)
Definition slot (question documentContent : jsstring) (st : State) : jsstring :=
  match snd (generateAnswer question documentContent st) with
  | Return answer => answer
  | Throw _ => fallbackAnswer question
  end.

(** The state in which the loop starts its turn number [i]. *)
Fixpoint stateBefore (i : nat) (questions : list jsstring)
    (documentContent : jsstring) (st : State) : State :=
  match i, questions with
  | S i', question :: rest =>
      stateBefore i' rest documentContent
        (fst (generateAnswer question documentContent st))
  | _, _ => st
  end.

(** The answers the loop pushes, one per question, each from the state
    its turn starts in. *)
Fixpoint slots (questions : list jsstring) (documentContent : jsstring)
    (st : State) : list jsstring :=
  match questions with
  | [] => []
  | question :: rest =>
      slot question documentContent st
        :: slots rest documentContent
             (fst (generateAnswer question documentContent st))
  end.

(** An answer comes from a question when it is the fallback for that
    question or the text a run of [generateAnswer] on it returned. *)
Definition answerOf (documentContent question answer : jsstring) : Prop :=
  answer = fallbackAnswer question \/
  exists st, snd (generateAnswer question documentContent st) = Return answer.

End WithExternals.
End Spec.

(* ===================================================================== *)
(** * Inputs of the worked examples *)
(* ===================================================================== *)

Module Examples.
Import Scripted.

(** Three questions; the second call to the model fails. *)
Definition threeQuestions : list jsstring :=
  [lit "What is the termination clause?";
   lit "What is the notice period?";
   lit "Who are the parties?"].

Definition secondFails : script :=
  mkScript [Return (lit "Thirty days."); Throw (newError (lit "503 overloaded"));
            Return (lit "Acme and Bolt.")]
           [] [].

(** No file is staged at the path. *)
Definition nothingStaged : script :=
  mkScript [Return (lit "Thirty days.")] [] [].

Definition policyUrl : jsstring := lit "https://example.com/policy.pdf".

Definition runBody (questions : list jsval) : jsval :=
  VObj [(lit "documents", VStr policyUrl); (lit "questions", VArr questions)].

(** A question of two letters padded with three blanks: length 5, trimmed
    length 2. *)
Definition paddedBody : jsval := runBody [VStr (lit "Hi   ")].

End Examples.
Import Spec Examples.

(* ===================================================================== *)
(** * Further notions and example inputs *)
(* ===================================================================== *)

Module Notions.

(** [l1] is [l2] with some elements left out, order kept. *)
Inductive Subseq {A : Type} : list A -> list A -> Prop :=
| Subseq_nil : Subseq [] []
| Subseq_skip (a : A) (l1 l2 : list A) : Subseq l1 l2 -> Subseq l1 (a :: l2)
| Subseq_keep (a : A) (l1 l2 : list A) : Subseq l1 l2 -> Subseq (a :: l1) (a :: l2).

(** No two underscores in a row. *)
Fixpoint noDoubleUnderscore (s : jsstring) : bool :=
  match s with
  | [] => true
  | a :: rest =>
      match rest with
      | [] => true
      | b :: _ =>
          negb (FileUtils.isUnderscore a && FileUtils.isUnderscore b)
          && noDoubleUnderscore rest
      end
  end.

(** The first code unit, if there is one, is not of the class. *)
Definition headOutside (inClass : codeUnit -> bool) (s : jsstring) : Prop :=
  match s with
  | [] => True
  | c :: _ => inClass c = false
  end.

(** [sanitizeString] as [validateAndSanitizeQuestions] calls it. *)
Definition sanitizeQuestion (s : jsstring) : jsstring :=
  Validator.sanitizeString (VStr s) (Validator.mkSanitizeOptions (Some 1000%Z) false).

(** A question the sanitiser keeps, with what it keeps of it. *)
Definition kept (item : jsval) (q : jsstring) : Prop :=
  exists s, item = VStr s /\ q = sanitizeQuestion s /\ 5 <= length q <= 1000.

(** None of the first five tests of [errorHandler] holds for the error:
    its name is none of the five special names and its message mentions
    none of the four key phrases. *)
Definition isPlain (error : ErrorHandler.appError) : bool :=
  negb (ErrorHandler.nameIs error (lit "ValidationError")
        || ErrorHandler.nameIs error (lit "UnauthorizedError")
        || ErrorHandler.mentions error (lit "unauthorized")
        || ErrorHandler.nameIs error (lit "ForbiddenError")
        || ErrorHandler.mentions error (lit "forbidden")
        || ErrorHandler.nameIs error (lit "NotFoundError")
        || ErrorHandler.mentions error (lit "not found")
        || ErrorHandler.nameIs error (lit "RateLimitError")
        || ErrorHandler.mentions error (lit "rate limit")).

(** A file system for the scripted world: [unlink] removes the path from
    the table of files, and fails when it is not there. *)
Definition scriptedUnlink : HackrxRoutes.FileSystem Scripted.scripted := {|
  HackrxRoutes.unlink := fun path (w : @World Scripted.scripted) =>
    match Scripted.lookup (Scripted.disk w) path with
    | Some _ =>
        (Scripted.mkScript (Scripted.replies w) (Scripted.remote w)
           (filter (fun entry => negb (jsstring_eqb (fst entry) path)) (Scripted.disk w)),
         Return tt)
    | None =>
        (w, Throw (mkJsError (lit "Error") (lit "ENOENT: no such file or directory")
                     None (Some (lit "ENOENT"))))
    end
|}.

(** A staged document and one scripted reply. *)
Definition stagedPolicy : Scripted.script :=
  Scripted.mkScript [Return (lit "Thirty days.")] []
    [(lit "uploads/policy.pdf", lit "Notice period: thirty days.")].

(** Both required variables set. *)
Definition completeEnv : Config.environment :=
  [(lit "GEMINI_API_KEY", lit "g-key"); (lit "AUTH_BEARER_TOKEN", lit "s3cret")].

End Notions.
Import Notions.

(* ===================================================================== *)
(** * Properties: string primitives *)
(* ===================================================================== *)

Section StringFacts.

Lemma jsstring_eqb_eq (a b : jsstring) : jsstring_eqb a b = true <-> a = b.
Proof.
  unfold jsstring_eqb. destruct (list_eq_dec N.eq_dec a b); split; congruence.
Qed.

Lemma jsstring_eqb_refl (a : jsstring) : jsstring_eqb a a = true.
Proof. now apply jsstring_eqb_eq. Qed.

Lemma jsstring_eqb_neq (a b : jsstring) : jsstring_eqb a b = false <-> a <> b.
Proof.
  unfold jsstring_eqb. destruct (list_eq_dec N.eq_dec a b); split; congruence.
Qed.

(** A string starts with [prefix] exactly when it is [prefix] followed by
    something. *)
Lemma startsWith_iff (s prefix : jsstring) :
  startsWith s prefix = true <-> exists rest, s = prefix ++ rest.
Proof.
  revert s. induction prefix as [|p prefix IH]; intros s; simpl.
  - split; [intros _; now exists s | reflexivity].
  - destruct s as [|c s]; simpl.
    + split; [discriminate | intros [rest H]; discriminate].
    + rewrite andb_true_iff, N.eqb_eq, IH. split.
      * intros [-> [rest ->]]. now exists rest.
      * intros [rest H]. injection H as -> ->. split; [reflexivity | now exists rest].
Qed.

(** [substring(n)] drops the first [n] code units. *)
Lemma substring_from (s : jsstring) (n : nat) :
  substring s (Z.of_nat n) None = skipn n s.
Proof.
  unfold substring, clampIndex. rewrite Nat2Z.id.
  destruct (Nat.le_gt_cases n (length s)) as [Hle | Hgt].
  - rewrite (Nat.min_l n) by exact Hle.
    rewrite Nat.min_l, Nat.max_r by exact Hle.
    rewrite <- (length_skipn n s). apply firstn_all.
  - rewrite (Nat.min_r n) by lia.
    rewrite Nat.min_id, Nat.max_id, Nat.sub_diag.
    rewrite !skipn_all2 by lia. reflexivity.
Qed.

Lemma substring_after_prefix (prefix rest : jsstring) :
  substring (prefix ++ rest) (Z.of_nat (length prefix)) None = rest.
Proof.
  rewrite substring_from, skipn_app, skipn_all, Nat.sub_diag. reflexivity.
Qed.

End StringFacts.

(* ===================================================================== *)
(** * Properties: the bearer-token check *)
(* ===================================================================== *)

Section AuthFacts.
Import Auth.

Lemma bearer_prefix_length : Z.of_nat (length (lit "Bearer ")) = 7%Z.
Proof. reflexivity. Qed.

(** On a non-empty header the first test is passed. *)
Lemma authMiddleware_nonempty (h : jsstring) (expectedToken : option jsstring) :
  h <> [] ->
  authMiddleware (Some h) expectedToken =
  if negb (startsWith h (lit "Bearer ")) then
    Respond 401 (mkErrorBody (lit "Invalid authentication format")
                   (lit "Authorization header must use Bearer token format"))
  else
    match expectedToken with
    | Some expected =>
        if negb (jsstring_eqb (substring h 7 None) expected) then
          Respond 401 (mkErrorBody (lit "Authentication failed")
                         (lit "Invalid bearer token"))
        else Next
    | None =>
        Respond 401 (mkErrorBody (lit "Authentication failed")
                       (lit "Invalid bearer token"))
    end.
Proof. destruct h; [congruence | reflexivity]. Qed.

(** The middleware calls [next()] exactly on the header made of
    [Bearer ] and the configured token. *)
Lemma authMiddleware_next_iff (authHeader expectedToken : option jsstring) :
  authMiddleware authHeader expectedToken = Next <->
  exists token, authHeader = Some (lit "Bearer " ++ token) /\ expectedToken = Some token.
Proof.
  split.
  - unfold authMiddleware.
    destruct authHeader as [[|c h]|]; try discriminate.
    destruct (startsWith (c :: h) (lit "Bearer ")) eqn:Hp; try discriminate.
    destruct expectedToken as [expected|]; try discriminate.
    cbv [negb]. destruct (jsstring_eqb _ expected) eqn:Ht; try discriminate.
    intros _. apply startsWith_iff in Hp. destruct Hp as [rest Hrest].
    apply jsstring_eqb_eq in Ht. rewrite Hrest in Ht.
    rewrite <- bearer_prefix_length, substring_after_prefix in Ht.
    exists rest. split; [now rewrite Hrest | now rewrite Ht].
  - intros [token [-> ->]].
    rewrite authMiddleware_nonempty by discriminate.
    assert (Hp : startsWith (lit "Bearer " ++ token) (lit "Bearer ") = true)
      by (apply startsWith_iff; now exists token).
    rewrite Hp. cbv [negb].
    rewrite <- bearer_prefix_length, substring_after_prefix, jsstring_eqb_refl.
    reflexivity.
Qed.

(** Whatever is not passed on is answered with status 401. *)
Lemma authMiddleware_401_or_next (authHeader expectedToken : option jsstring) :
  authMiddleware authHeader expectedToken = Next \/
  exists body, authMiddleware authHeader expectedToken = Respond 401 body.
Proof.
  unfold authMiddleware.
  destruct authHeader as [[|c h]|]; try (right; eexists; reflexivity).
  destruct (negb (startsWith (c :: h) (lit "Bearer "))); [right; eexists; reflexivity|].
  destruct expectedToken as [expected|]; [|right; eexists; reflexivity].
  destruct (negb (jsstring_eqb _ expected)); [right; eexists; reflexivity | now left].
Qed.

(** C7. [authMiddleware] answers 401, and does not call [next()], when the
    Authorization header is absent, when it does not start with
    [Bearer ], and when the token after the prefix is not the configured
    secret; it calls [next()] exactly when the header is [Bearer ]
    followed by the configured secret. *)
Theorem authMiddleware_boundary (authHeader expectedToken : option jsstring) :
  (authHeader = None ->
     exists body, authMiddleware authHeader expectedToken = Respond 401 body) /\
  (forall h, authHeader = Some h -> startsWith h (lit "Bearer ") = false ->
     exists body, authMiddleware authHeader expectedToken = Respond 401 body) /\
  (forall h, authHeader = Some h -> expectedToken <> Some (substring h 7 None) ->
     exists body, authMiddleware authHeader expectedToken = Respond 401 body) /\
  (authMiddleware authHeader expectedToken = Next <->
     exists token, authHeader = Some (lit "Bearer " ++ token)
                   /\ expectedToken = Some token).
Proof.
  assert (Hno : authMiddleware authHeader expectedToken <> Next ->
                exists body, authMiddleware authHeader expectedToken = Respond 401 body).
  { intros Hn. destruct (authMiddleware_401_or_next authHeader expectedToken); tauto. }
  repeat split.
  - intros ->. apply Hno. discriminate.
  - intros h -> Hp. apply Hno. intros Hnext.
    apply authMiddleware_next_iff in Hnext. destruct Hnext as [token [Hh _]].
    assert (Hyes : startsWith h (lit "Bearer ") = true)
      by (apply startsWith_iff; exists token; now injection Hh).
    rewrite Hyes in Hp. discriminate.
  - intros h -> Hne. apply Hno. intros Hnext.
    apply authMiddleware_next_iff in Hnext. destruct Hnext as [token [Hh Hexp]].
    assert (Hsub : substring h 7 None = token)
      by (injection Hh as ->; exact (substring_after_prefix (lit "Bearer ") token)).
    apply Hne. now rewrite Hexp, Hsub.
  - apply authMiddleware_next_iff.
  - apply authMiddleware_next_iff.
Qed.

(** C10. With no secret configured ([AUTH_BEARER_TOKEN] unset),
    [authMiddleware] answers 401 whatever the Authorization header is,
    and never calls [next()]. *)
Theorem authMiddleware_fails_closed (authHeader : option jsstring) :
  (exists body, authMiddleware authHeader None = Respond 401 body) /\
  authMiddleware authHeader None <> Next.
Proof.
  assert (Hn : authMiddleware authHeader None <> Next).
  { intros Hnext. apply authMiddleware_next_iff in Hnext.
    destruct Hnext as [token [_ Hexp]]. discriminate. }
  split; [|exact Hn].
  destruct (authMiddleware_401_or_next authHeader None); tauto.
Qed.

Example auth_correct_token :
  authMiddleware (Some (lit "Bearer s3cret")) (Some (lit "s3cret")) = Next.
Proof. reflexivity. Qed.

Example auth_wrong_token :
  authMiddleware (Some (lit "Bearer guess")) (Some (lit "s3cret"))
  = Respond 401 (mkErrorBody (lit "Authentication failed") (lit "Invalid bearer token")).
Proof. reflexivity. Qed.

Example auth_basic_scheme :
  authMiddleware (Some (lit "Basic s3cret")) (Some (lit "s3cret"))
  = Respond 401 (mkErrorBody (lit "Invalid authentication format")
                   (lit "Authorization header must use Bearer token format")).
Proof. reflexivity. Qed.

End AuthFacts.

(* ===================================================================== *)
(** * Properties: answer generation *)
(* ===================================================================== *)

Section GeminiFacts.
Import GeminiService.
Context {E : Externals}.

(** One run of [generateAnswer], spelled out: a single traced call to the
    model on the prompt; its text is returned as it is, its failure is
    rethrown under the prefix [Gemini API error: ]. *)
Lemma generateAnswer_run (question documentContent : jsstring) (st : State) :
  generateAnswer question documentContent st =
  let prompt := buildPrompt question documentContent in
  (mkState (fst (generateContent prompt (world st)))
           (trace st ++ [EvGenerateContent prompt]),
   match snd (generateContent prompt (world st)) with
   | Return text => Return text
   | Throw error => Throw (newError (lit "Gemini API error: " ++ JS.message error))
   end).
Proof.
  unfold generateAnswer, tryCatch, bind, callGenerateContent, external, ret, throw.
  cbv zeta.
  destruct (generateContent (buildPrompt question documentContent) (world st))
    as [w [text | error]]; reflexivity.
Qed.

(** The prompt holds the context and, after it, the question. *)
Lemma buildPrompt_embeds (question documentContent : jsstring) :
  exists pre mid post,
    buildPrompt question documentContent
    = pre ++ documentContent ++ mid ++ question ++ post.
Proof.
  destruct documentContent as [|c documentContent].
  - exists (lit "Answer the following question: "), [], [].
    simpl. now rewrite app_nil_r.
  - exists (lit "Based on the following document content, answer the question."
              ++ nl ++ nl ++ lit "Document Content:" ++ nl),
           (nl ++ nl ++ lit "Question: "),
           (nl ++ nl ++ lit "Answer:").
    unfold buildPrompt. now rewrite <- !app_assoc.
Qed.

(** C8. [generateAnswer] builds one prompt that embeds the context and the
    question, calls the text-generation service exactly once, on that
    prompt, and returns the text the service produced unchanged (a failed
    call is rethrown). *)
Theorem generateAnswer_single_call_verbatim
    (question documentContent : jsstring) (st : State) :
  let prompt := buildPrompt question documentContent in
  let run := generateAnswer question documentContent st in
  (exists pre mid post,
     prompt = pre ++ documentContent ++ mid ++ question ++ post) /\
  trace (fst run) = trace st ++ [EvGenerateContent prompt] /\
  world (fst run) = fst (generateContent prompt (world st)) /\
  (forall text, snd (generateContent prompt (world st)) = Return text ->
     snd run = Return text) /\
  (forall error, snd (generateContent prompt (world st)) = Throw error ->
     exists error', snd run = Throw error').
Proof.
  intros prompt run. subst prompt run. rewrite generateAnswer_run. cbv zeta. simpl.
  split; [apply buildPrompt_embeds|].
  repeat split.
  - intros text ->. reflexivity.
  - intros error ->. eexists. reflexivity.
Qed.

Lemma processLoop_cons (question : jsstring) (rest : list jsstring)
    (documentContent : jsstring) (answers : list jsstring) (st : State) :
  processLoop (question :: rest) documentContent answers st =
  processLoop rest documentContent
    (answers ++ [slot question documentContent st])
    (fst (generateAnswer question documentContent st)).
Proof.
  unfold slot. simpl. unfold bind at 1. unfold tryCatch at 1. unfold bind at 1.
  destruct (generateAnswer question documentContent st) as [st' [answer | error]];
    reflexivity.
Qed.

Lemma processLoop_slots (questions : list jsstring) (documentContent : jsstring) :
  forall (answers : list jsstring) (st : State),
    processLoop questions documentContent answers st =
    (stateBefore (length questions) questions documentContent st,
     Return (answers ++ slots questions documentContent st)).
Proof.
  induction questions as [|question rest IH]; intros answers st.
  - simpl. now rewrite app_nil_r.
  - rewrite processLoop_cons, IH. simpl. now rewrite <- app_assoc.
Qed.

Lemma slots_length (questions : list jsstring) (documentContent : jsstring) :
  forall st, length (slots questions documentContent st) = length questions.
Proof.
  induction questions as [|question rest IH]; intros st; simpl; [|rewrite IH];
    reflexivity.
Qed.

Lemma slots_nth (questions : list jsstring) (documentContent : jsstring) :
  forall (i : nat) (st : State) (question : jsstring),
    nth_error questions i = Some question ->
    nth_error (slots questions documentContent st) i
    = Some (slot question documentContent
              (stateBefore i questions documentContent st)).
Proof.
  induction questions as [|q rest IH]; intros [|i] st question H;
    simpl in *; try discriminate.
  - now injection H as ->.
  - now apply IH.
Qed.

Lemma stateBefore_firstn (questions : list jsstring) (documentContent : jsstring) :
  forall (i : nat) (st : State),
    stateBefore (length (firstn i questions)) (firstn i questions) documentContent st
    = stateBefore i questions documentContent st.
Proof.
  induction questions as [|q rest IH]; intros [|i] st; try reflexivity.
  simpl. apply IH.
Qed.

(** The state before turn [i] is the one [processQuestions] ends in on
    the first [i] questions. *)
Lemma stateBefore_prefix (questions : list jsstring) (documentContent : jsstring)
    (i : nat) (st : State) :
  stateBefore i questions documentContent st
  = fst (processQuestions (firstn i questions) documentContent st).
Proof.
  unfold processQuestions. rewrite processLoop_slots. simpl.
  symmetry. apply stateBefore_firstn.
Qed.

Lemma slots_answerOf (questions : list jsstring) (documentContent : jsstring) :
  forall st,
    Forall2 (answerOf documentContent) questions (slots questions documentContent st).
Proof.
  induction questions as [|question rest IH]; intros st; simpl; constructor.
  - unfold answerOf, slot.
    destruct (snd (generateAnswer question documentContent st)) eqn:Hrun.
    + right. now exists st.
    + now left.
  - apply IH.
Qed.

(** [processQuestions] completes normally, with the answers of its
    turns. *)
Lemma processQuestions_slots (questions : list jsstring) (documentContent : jsstring)
    (st : State) :
  processQuestions questions documentContent st =
  (stateBefore (length questions) questions documentContent st,
   Return (slots questions documentContent st)).
Proof. unfold processQuestions. now rewrite processLoop_slots. Qed.

(** C1. [processQuestions] always completes with a list of answers of the
    length of the question list, and the answer at each index comes from
    the question at that index (it is what the turn of the loop for that
    question pushed), whichever calls of [generateAnswer] fail. *)
Theorem processQuestions_length_and_order
    (questions : list jsstring) (documentContent : jsstring) (st : State) :
  exists st' result,
    processQuestions questions documentContent st = (st', Return result) /\
    length result = length questions /\
    Forall2 (answerOf documentContent) questions result /\
    (forall i question,
       nth_error questions i = Some question ->
       nth_error result i
       = Some (slot question documentContent
                 (stateBefore i questions documentContent st))).
Proof.
  rewrite processQuestions_slots.
  do 2 eexists. split; [reflexivity|]. repeat split.
  - apply slots_length.
  - apply slots_answerOf.
  - intros i question. apply slots_nth.
Qed.

(** C2. When [generateAnswer] throws for the question at index [i] (run
    in the state the loop has reached there), [processQuestions] still
    completes normally, slot [i] of its result is the fallback string
    followed by that question, and where the call returns, the slot
    holds the returned answer. *)
Theorem processQuestions_isolates_failure
    (questions : list jsstring) (documentContent : jsstring) (st : State)
    (i : nat) (question : jsstring) :
  nth_error questions i = Some question ->
  let before := fst (processQuestions (firstn i questions) documentContent st) in
  exists st' result,
    processQuestions questions documentContent st = (st', Return result) /\
    (forall error,
       snd (generateAnswer question documentContent before) = Throw error ->
       nth_error result i
       = Some (lit "Sorry, I couldn't process this question: " ++ question)) /\
    (forall answer,
       snd (generateAnswer question documentContent before) = Return answer ->
       nth_error result i = Some answer).
Proof.
  intros Hq before. subst before. rewrite <- stateBefore_prefix.
  rewrite processQuestions_slots.
  do 2 eexists. split; [reflexivity|].
  rewrite (slots_nth _ _ _ _ Hq). unfold slot.
  split.
  - intros error ->. reflexivity.
  - intros answer ->. reflexivity.
Qed.

End GeminiFacts.

(* ===================================================================== *)
(** * Properties: text extraction *)
(* ===================================================================== *)

Section PdfFacts.
Import PdfService.
Context {E : Externals}.

Lemma checkText_blank (data : pdfData) (st : State) :
  isBlank (text data) = true -> exists error, checkText data st = (st, Throw error).
Proof.
  unfold checkText, isBlank. destruct (text data) as [[|c t]|]; intros H.
  - eexists. reflexivity.
  - rewrite H. eexists. reflexivity.
  - eexists. reflexivity.
Qed.

Lemma checkText_return (data : pdfData) (st st' : State) (t : jsstring) :
  checkText data st = (st', Return t) -> text data = Some t /\ trim t <> [].
Proof.
  unfold checkText. destruct (text data) as [[|c s]|]; try discriminate.
  simpl orb. destruct (Nat.eqb (length (trim (c :: s))) 0) eqn:Hlen; try discriminate.
  unfold ret. intros H. injection H as _ <-. split; [reflexivity|].
  intros Hnil. rewrite Hnil in Hlen. discriminate.
Qed.

(** A [try] whose [catch] block always throws returns only what its body
    returned. *)
Lemma tryCatch_rethrow_return {A} (body : Async A) (handler : JsError -> Async A)
    (st st' : State) (a : A) :
  (forall error s, exists error', handler error s = (s, Throw error')) ->
  tryCatch body handler st = (st', Return a) ->
  body st = (st', Return a).
Proof.
  intros Hthrows. unfold tryCatch.
  destruct (body st) as [s [x | error]]; [trivial|].
  destruct (Hthrows error s) as [error' ->]. discriminate.
Qed.

Lemma tryCatch_rethrow_throw {A} (body : Async A) (handler : JsError -> Async A)
    (st st' : State) (error : JsError) :
  (forall error s, exists error', handler error s = (s, Throw error')) ->
  body st = (st', Throw error) ->
  exists error', tryCatch body handler st = (st', Throw error').
Proof.
  intros Hthrows Hbody. unfold tryCatch. rewrite Hbody. apply Hthrows.
Qed.

Lemma bind_return {A B} (m : Async A) (k : A -> Async B) (st st' : State) (b : B) :
  bind m k st = (st', Return b) ->
  exists a s, m st = (s, Return a) /\ k a s = (st', Return b).
Proof.
  unfold bind. destruct (m st) as [s [a | error]]; [|discriminate].
  intros H. now exists a, s.
Qed.

Lemma urlHandler_throws (error : JsError) (s : State) :
  exists error',
    (match response error with
     | Some (status, statusText) =>
         throw (newError (lit "Failed to download PDF: " ++ decimal status
                            ++ lit " " ++ statusText))
     | None =>
         if codeIs error (lit "ENOTFOUND") then
           throw (newError (lit "PDF document not found at the provided URL"))
         else if codeIs error (lit "ETIMEDOUT") then
           throw (newError (lit "Timeout while downloading PDF document"))
         else
           throw (newError (lit "PDF processing failed: " ++ JS.message error))
     end : Async jsstring) s = (s, Throw error').
Proof.
  destruct (response error) as [[status statusText]|].
  - eexists. reflexivity.
  - destruct (codeIs error (lit "ENOTFOUND")); [eexists; reflexivity|].
    destruct (codeIs error (lit "ETIMEDOUT")); eexists; reflexivity.
Qed.

Lemma extractTextFromUrl_return (pdfUrl : jsstring) (st st' : State) (t : jsstring) :
  extractTextFromUrl pdfUrl st = (st', Return t) -> trim t <> [].
Proof.
  unfold extractTextFromUrl. intros H.
  apply tryCatch_rethrow_return in H; [|apply urlHandler_throws].
  apply bind_return in H. destruct H as [buffer [s1 [_ H]]].
  apply bind_return in H. destruct H as [data [s2 [_ H]]].
  now apply checkText_return in H.
Qed.

Lemma extractTextFromFile_return (filePath : jsstring) (st st' : State) (t : jsstring) :
  extractTextFromFile filePath st = (st', Return t) -> trim t <> [].
Proof.
  unfold extractTextFromFile. intros H.
  apply tryCatch_rethrow_return in H; [|intros; eexists; reflexivity].
  apply bind_return in H. destruct H as [found [s0 [_ H]]].
  destruct (negb found); [discriminate|].
  apply bind_return in H. destruct H as [buffer [s1 [_ H]]].
  apply bind_return in H. destruct H as [data [s2 [_ H]]].
  now apply checkText_return in H.
Qed.

(** C6. Both extraction entry points throw whenever the text parsed from
    the document is absent or only whitespace, and neither returns a
    string that is empty after trimming. *)
Theorem extraction_rejects_blank_text (pdfUrl filePath : jsstring) (st : State) :
  (forall buffer w1 data w2,
     axiosGet pdfUrl (world st) = (w1, Return buffer) ->
     pdf buffer w1 = (w2, Return data) ->
     isBlank (text data) = true ->
     exists st' error, extractTextFromUrl pdfUrl st = (st', Throw error)) /\
  (forall st' t, extractTextFromUrl pdfUrl st = (st', Return t) -> trim t <> []) /\
  (forall w0 buffer w1 data w2,
     pathExists filePath (world st) = (w0, true) ->
     readFile filePath w0 = (w1, Return buffer) ->
     pdf buffer w1 = (w2, Return data) ->
     isBlank (text data) = true ->
     exists st' error, extractTextFromFile filePath st = (st', Throw error)) /\
  (forall st' t, extractTextFromFile filePath st = (st', Return t) -> trim t <> []).
Proof.
  repeat split.
  - intros buffer w1 data w2 Hget Hpdf Hblank.
    destruct (checkText_blank data
                (mkState w2 ((trace st ++ [EvAxiosGet pdfUrl]) ++ [EvPdf buffer]))
                Hblank) as [error Hcheck].
    eexists.
    eapply tryCatch_rethrow_throw; [apply urlHandler_throws|].
    unfold bind, callAxiosGet, callPdf, external. rewrite Hget. simpl.
    rewrite Hpdf. exact Hcheck.
  - apply extractTextFromUrl_return.
  - intros w0 buffer w1 data w2 Hex Hread Hpdf Hblank.
    destruct (checkText_blank data
                (mkState w2 (((trace st ++ [EvPathExists filePath])
                                ++ [EvReadFile filePath]) ++ [EvPdf buffer]))
                Hblank) as [error Hcheck].
    eexists.
    eapply tryCatch_rethrow_throw; [intros; eexists; reflexivity|].
    unfold bind, callPathExists, callReadFile, callPdf, external.
    rewrite Hex. simpl. rewrite Hread. simpl. rewrite Hpdf. exact Hcheck.
  - apply extractTextFromFile_return.
Qed.

End PdfFacts.

(* ===================================================================== *)
(** * Properties: the orchestrator *)
(* ===================================================================== *)

Section RagFacts.
Import GeminiService PdfService RagService.
Context {E : Externals}.

(** The URL variant: whatever extraction does, the questions are
    processed, with the extracted text as context, or with the empty
    string when extraction threw. *)
Lemma processDocumentAndQuestions_run (documentUrl : jsstring)
    (questions : list jsstring) (st : State) :
  processDocumentAndQuestions documentUrl questions st =
  processQuestions questions
    (match snd (extractTextFromUrl documentUrl st) with
     | Return text => text
     | Throw _ => []
     end)
    (fst (extractTextFromUrl documentUrl st)).
Proof.
  unfold processDocumentAndQuestions.
  unfold tryCatch at 1. unfold bind at 1. unfold tryCatch at 1.
  destruct (extractTextFromUrl documentUrl st) as [st1 [text | pdfError]]; simpl;
    unfold ret at 1; unfold bind; rewrite processQuestions_slots; reflexivity.
Qed.

(** The URL variant tolerates a failed extraction: it goes on with the
    empty context and returns one answer per question. *)
Lemma processDocumentAndQuestions_tolerates_extraction_failure
    (documentUrl : jsstring) (questions : list jsstring) (st st1 : State)
    (pdfError : JsError) :
  extractTextFromUrl documentUrl st = (st1, Throw pdfError) ->
  processDocumentAndQuestions documentUrl questions st
  = processQuestions questions [] st1 /\
  exists st' result,
    processDocumentAndQuestions documentUrl questions st = (st', Return result) /\
    length result = length questions.
Proof.
  intros Hext. rewrite processDocumentAndQuestions_run, Hext. simpl.
  split; [reflexivity|].
  rewrite processQuestions_slots.
  do 2 eexists. split; [reflexivity | apply slots_length].
Qed.

(** C3 (local-path variant). When [extractTextFromFile] throws,
    [processFileAndQuestions] does not go on with an empty context: the
    error reaches the outer [catch] and the call fails with a
    [DocumentProcessingError], whatever the questions. *)
Theorem processFileAndQuestions_fails_on_extraction_failure
    (filePath : jsstring) (questions : list jsstring) (st st1 : State)
    (pdfError : JsError) :
  extractTextFromFile filePath st = (st1, Throw pdfError) ->
  processFileAndQuestions filePath questions st
  = (st1, Throw (mkJsError (lit "DocumentProcessingError")
                   (lit "Failed to process file and questions") None None)).
Proof.
  intros Hext. unfold processFileAndQuestions, tryCatch, bind.
  rewrite Hext. reflexivity.
Qed.

End RagFacts.

(* ===================================================================== *)
(** * Runs in the scripted world *)
(* ===================================================================== *)

Section ScriptedRuns.
Import GeminiService PdfService RagService Scripted.

Example processQuestions_second_fails :
  snd (@processQuestions scripted threeQuestions [] (start secondFails))
  = Return [lit "Thirty days.";
            lit "Sorry, I couldn't process this question: What is the notice period?";
            lit "Acme and Bolt."].
Proof. reflexivity. Qed.

(** The isolation property at work: index 1 of [threeQuestions] under
    [secondFails]. *)
Lemma processQuestions_isolates_failure_witness :
  nth_error threeQuestions 1 = Some (lit "What is the notice period?") /\
  exists st' result,
    @processQuestions scripted threeQuestions [] (start secondFails)
    = (st', Return result) /\
    nth_error result 1
    = Some (lit "Sorry, I couldn't process this question: What is the notice period?").
Proof.
  split; [reflexivity|].
  destruct (@processQuestions_isolates_failure scripted threeQuestions []
              (start secondFails) 1 (lit "What is the notice period?")
              eq_refl)
    as [st' [result [Hrun [Hthrow _]]]].
  exists st', result. split; [exact Hrun|].
  apply (Hthrow (newError (lit "Gemini API error: 503 overloaded"))).
  reflexivity.
Defined.

(** The local-path variant on a path where nothing is staged: extraction
    throws, and so does the pipeline. *)
Lemma processFileAndQuestions_fails_witness :
  @extractTextFromFile scripted (lit "uploads/missing.pdf") (start nothingStaged)
  = (@mkState scripted nothingStaged [EvPathExists (lit "uploads/missing.pdf")],
     Throw (newError (lit "PDF file processing failed: PDF file not found"))) /\
  @processFileAndQuestions scripted (lit "uploads/missing.pdf")
     [lit "What is the notice period?"] (start nothingStaged)
  = (@mkState scripted nothingStaged [EvPathExists (lit "uploads/missing.pdf")],
     Throw (mkJsError (lit "DocumentProcessingError")
              (lit "Failed to process file and questions") None None)).
Proof.
  split; [reflexivity|].
  apply (@processFileAndQuestions_fails_on_extraction_failure scripted
           (lit "uploads/missing.pdf") [lit "What is the notice period?"]
           (start nothingStaged) _
           (newError (lit "PDF file processing failed: PDF file not found"))).
  reflexivity.
Defined.

(** The same dead reference given as a URL: one answer comes back. *)
Example processDocumentAndQuestions_dead_url :
  snd (@processDocumentAndQuestions scripted (lit "https://dead.example/a.pdf")
         [lit "What is the notice period?"] (start nothingStaged))
  = Return [lit "Thirty days."].
Proof. reflexivity. Qed.

(** A staged document that holds only blanks is refused. *)
Example extractTextFromFile_blank_document :
  snd (@extractTextFromFile scripted (lit "uploads/blank.pdf")
         (start (mkScript [] [] [(lit "uploads/blank.pdf", [32; 10; 32]%N)])))
  = Throw (newError
             (lit "PDF file processing failed: PDF contains no extractable text")).
Proof. reflexivity. Qed.

End ScriptedRuns.

(* ===================================================================== *)
(** * Properties: request validation *)
(* ===================================================================== *)

Section JoiFacts.
Import Joi.
Variable uriRule : list jsstring -> bool -> jsstring -> bool.

Lemma app_nil_iff {A} (l1 l2 : list A) : l1 ++ l2 = [] <-> l1 = [] /\ l2 = [].
Proof.
  split; [apply app_eq_nil | intros [-> ->]; reflexivity].
Qed.

Lemma if_nil_iff {A} (b : bool) (x : A) :
  (if b then [x] else []) = [] <-> b = false.
Proof. destruct b; split; congruence. Qed.

Lemma unless_nil_iff {A} (b : bool) (x : A) :
  (if b then [] else [x]) = [] <-> b = true.
Proof. destruct b; split; congruence. Qed.

(** A required string under a single [uri] rule passes exactly on a
    non-empty string the rule accepts. *)
Lemma validate_uri_string (scheme : list jsstring) (allowRelative : bool)
    (own inherited : messages) (path : list pathKey) (v : jsval) :
  validate uriRule (JString [StrUri scheme allowRelative] true own) inherited path v = []
  <-> match v with
      | VStr (c :: s) => uriRule scheme allowRelative (c :: s) = true
      | _ => False
      end.
Proof.
  destruct v as [| | b | z | [|c s] | items | fields]; cbn [validate];
    try (split; [discriminate | contradiction]).
  cbn [flat_map checkStringRule]. rewrite app_nil_r. apply unless_nil_iff.
Qed.

(** A required string under [min] and [max] passes exactly on a string
    whose length lies between the two limits. *)
Lemma validate_bounded_string (lo hi : nat) (own inherited : messages)
    (path : list pathKey) (v : jsval) :
  0 < lo ->
  validate uriRule (JString [StrMin lo; StrMax hi] true own) inherited path v = []
  <-> match v with
      | VStr s => lo <= length s <= hi
      | _ => False
      end.
Proof.
  intros Hlo.
  destruct v as [| | b | z | [|c s] | items | fields]; cbn [validate];
    try (split; [discriminate | contradiction]).
  - split; [discriminate | simpl; lia].
  - cbn [flat_map checkStringRule]. rewrite app_nil_r, app_nil_iff, !if_nil_iff.
    rewrite !Nat.ltb_ge. reflexivity.
Qed.

Lemma isQuestion_iff (v : jsval) :
  Spec.isQuestion v = true
  <-> match v with
      | VStr s => 5 <= length s <= 1000
      | _ => False
      end.
Proof.
  destruct v; cbn [Spec.isQuestion]; try (split; [discriminate | contradiction]).
  rewrite andb_true_iff, !Nat.leb_le. reflexivity.
Qed.

(** The [items] loop over question strings: it reports nothing exactly
    when every element is a string of admissible length, and then an
    element has matched as soon as there is one. *)
Lemma eachItem_questions (own inherited msgs : messages) (path : list pathKey)
    (elems : list jsval) :
  forall i,
    let perItem :=
      eachItem (fun p e =>
                  validate uriRule (JString [StrMin 5; StrMax 1000] true own)
                           inherited p e)
               msgs path i elems in
    (concat perItem = [] <-> forallb Spec.isQuestion elems = true) /\
    (concat perItem = [] -> existsb noErrors perItem = negb (Nat.eqb (length elems) 0)).
Proof.
  induction elems as [|e rest IH]; intros i perItem; subst perItem.
  - simpl. split; [split; reflexivity | reflexivity].
  - destruct (IH (S i)) as [IHall IHsome].
    assert (Hq := @validate_bounded_string 5 1000 own inherited
                    (path ++ [Index i]) e ltac:(lia)).
    rewrite <- isQuestion_iff in Hq.
    cbn [forallb]. rewrite andb_true_iff, <- IHall, <- Hq.
    destruct e; cbn [eachItem concat];
      try (rewrite app_nil_iff; split; [reflexivity|];
           intros [Hhead _]; cbn [existsb length Nat.eqb negb];
           rewrite Hhead; reflexivity).
    split.
    + split; [discriminate|]. intros [Habs _].
      apply Hq in Habs. discriminate.
    + discriminate.
Qed.

(** The [questions] array of the run schema passes exactly on an array of
    1 to 10 admissible question strings. *)
Lemma validate_questions (own own' inherited : messages) (path : list pathKey)
    (v : jsval) :
  validate uriRule
    (JArray (JString [StrMin 5; StrMax 1000] true own) [ArrMin 1; ArrMax 10] true own')
    inherited path v = []
  <-> match v with
      | VArr elems =>
          1 <= length elems <= 10 /\ forallb Spec.isQuestion elems = true
      | _ => False
      end.
Proof.
  destruct v as [| | b | z | s | elems | fields]; cbn [validate];
    try (split; [discriminate | contradiction]).
  cbv zeta.
  destruct (eachItem_questions own (own' ++ inherited) (own' ++ inherited) path elems 0)
    as [Hall Hsome].
  cbv zeta in Hall, Hsome.
  cbn [flat_map checkArrayRule isRequired andb].
  rewrite !app_nil_iff, !if_nil_iff, !Nat.ltb_ge, Hall.
  split.
  - intros [Hitems [_ [Hmin [Hmax _]]]]. repeat split; assumption.
  - intros [[Hmin Hmax] Hitems]. repeat split; try assumption.
    apply negb_false_iff.
    refine (eq_trans (Hsome (proj2 Hall Hitems)) _).
    destruct elems; [simpl in Hmin; lia | reflexivity].
Qed.

End JoiFacts.

Section ValidatorFacts.
Import Joi Validator.
Variable uriRule : list jsstring -> bool -> jsstring -> bool.

(** Validation of an object, unfolded one level. *)
Lemma validate_object (keys : list (jsstring * schema)) (inherited : messages)
    (path : list pathKey) (fields : list (jsstring * jsval)) :
  validate uriRule (JObject keys) inherited path (VObj fields) =
  flat_map (fun ks : jsstring * schema =>
              validate uriRule (snd ks) inherited (path ++ [Key (fst ks)])
                       (getField fields (fst ks)))
           keys
  ++ flat_map (fun kv : jsstring * jsval =>
                 if existsb (fun ks : jsstring * schema => jsstring_eqb (fst ks) (fst kv)) keys
                 then []
                 else [report inherited (path ++ [Key (fst kv)])
                         (lit "object.unknown") (snd kv)])
              fields.
Proof. reflexivity. Qed.

Lemma unknown_keys_none {A B} (declared : A -> bool) (mk : A * B -> detail)
    (fields : list (A * B)) :
  flat_map (fun kv => if declared (fst kv) then [] else [mk kv]) fields = []
  <-> forallb (fun kv => declared (fst kv)) fields = true.
Proof.
  induction fields as [|kv rest IH]; [split; reflexivity|].
  cbn [flat_map forallb]. rewrite app_nil_iff, andb_true_iff, IH, unless_nil_iff.
  reflexivity.
Qed.

Lemma forallb_pointwise {A} (f g : A -> bool) (l : list A) :
  (forall a, f a = g a) -> forallb f l = forallb g l.
Proof.
  intros Hfg. induction l as [|a l IH]; [reflexivity|].
  cbn [forallb]. now rewrite Hfg, IH.
Qed.

Lemma runRequestSchema_keys : runRequestSchema = JObject runRequestKeys.
Proof. reflexivity. Qed.

Lemma runRequestKeys_declared (k : jsstring) :
  existsb (fun ks : jsstring * schema => jsstring_eqb (fst ks) k) runRequestKeys
  = Spec.isDeclaredKey k.
Proof.
  unfold runRequestKeys, runRequestSchema, Spec.isDeclaredKey.
  cbn [existsb fst]. now rewrite orb_false_r.
Qed.

(** [runRequestSchema] reports nothing exactly on a missing body and on
    the bodies [schemaAccepts] describes. *)
Lemma validate_runRequestSchema (body : jsval) :
  validate uriRule runRequestSchema [] [] body = []
  <-> body = VUndefined \/ Spec.schemaAccepts uriRule body = true.
Proof.
  destruct body as [| | b | z | s | elems | fields];
    try (split; [discriminate | intros [H | H]; discriminate]).
  - split; [now left | reflexivity].
  - rewrite runRequestSchema_keys, validate_object, app_nil_iff.
    rewrite (unknown_keys_none
               (fun k => existsb (fun ks : jsstring * schema => jsstring_eqb (fst ks) k)
                           runRequestKeys)
               (fun kv => report [] ([] ++ [Key (fst kv)]) (lit "object.unknown") (snd kv))).
    rewrite (forallb_pointwise _
               (fun kv : jsstring * jsval => Spec.isDeclaredKey (fst kv)))
      by (intros kv; apply runRequestKeys_declared).
    unfold runRequestKeys, runRequestSchema. cbn [flat_map fst snd].
    rewrite app_nil_r, app_nil_iff, validate_uri_string, validate_questions.
    cbn [Spec.schemaAccepts]. rewrite !andb_true_iff.
    split.
    + intros [[Hdoc Hq] Hkeys]. right. repeat split.
      * exact Hkeys.
      * destruct (getField fields (lit "documents")) as [| | | | [|c d] | |];
          try contradiction. exact Hdoc.
      * destruct (getField fields (lit "questions")) as [| | | | | qs |];
          try contradiction.
        destruct Hq as [[Hmin Hmax] Hall].
        rewrite !andb_true_iff, !Nat.leb_le. repeat split; assumption.
    + intros [Habs | [[Hkeys Hdoc] Hq]]; [discriminate|]. repeat split.
      * destruct (getField fields (lit "documents")) as [| | | | [|c d] | |];
          try discriminate. exact Hdoc.
      * destruct (getField fields (lit "questions")) as [| | | | | qs |];
          try discriminate.
        rewrite !andb_true_iff, !Nat.leb_le in Hq. tauto.
      * exact Hkeys.
Qed.

(** An accepted body is an object whose [questions] is an array, so the
    reads made for the log entry do not throw. *)
Lemma schemaAccepts_reads (body : jsval) :
  Spec.schemaAccepts uriRule body = true ->
  readThrows body || readThrows (readProp body (lit "questions")) = false.
Proof.
  destruct body as [| | b | z | s | elems | fields]; try discriminate.
  cbn [Spec.schemaAccepts readThrows readProp orb]. rewrite !andb_true_iff.
  intros [_ Hq].
  destruct (getField fields (lit "questions")); try discriminate. reflexivity.
Qed.

(** C4, as the schema has it. [validateRequest] returns [isValid = true]
    exactly when the body is an object with no key besides [documents]
    and [questions], [documents] is a non-empty string the http/https URI
    rule accepts, and [questions] is an array of 1 to 10 strings each of
    length (untrimmed) between 5 and 1000; every other body gives
    [isValid = false] with at least one entry in [errors]. *)
Theorem validateRequest_accepts_iff (body : jsval) :
  isValid (validateRequest uriRule body) = Spec.schemaAccepts uriRule body /\
  (isValid (validateRequest uriRule body) = false ->
   exists e rest, errors (validateRequest uriRule body) = Some (e :: rest)).
Proof.
  unfold validateRequest.
  destruct (validate uriRule runRequestSchema [] [] body) as [|d details] eqn:Hv.
  - apply validate_runRequestSchema in Hv. destruct Hv as [-> | Hacc].
    + split; [reflexivity|]. intros _. cbn. do 2 eexists. reflexivity.
    + rewrite (schemaAccepts_reads body Hacc). cbn [isValid errors].
      split; [now rewrite Hacc | discriminate].
  - cbn [isValid errors map]. split.
    + destruct (Spec.schemaAccepts uriRule body) eqn:Hacc; [|reflexivity].
      assert (Hnil : validate uriRule runRequestSchema [] [] body = [])
        by (apply validate_runRequestSchema; now right).
      rewrite Hnil in Hv. discriminate.
    + intros _. do 2 eexists. reflexivity.
Qed.

End ValidatorFacts.

Section ValidatorRuns.
Import Joi Validator.

(** C4, as stated, fails on [paddedBody]: the question has trimmed length
    2, outside 5..1000, yet [validateRequest] returns [isValid = true]. *)
Lemma validateRequest_accepts_padded_question :
  isValid (validateRequest UriModel.uriRule paddedBody) = true /\
  Spec.specAccepts UriModel.uriRule paddedBody = false.
Proof. split; reflexivity. Qed.

(** In the other direction: a body that meets the stated rules and has
    one more key is refused. *)
Example validateRequest_refuses_unknown_key :
  let body := VObj [(lit "documents", VStr policyUrl);
                    (lit "questions", VArr [VStr (lit "What is covered?")]);
                    (lit "lang", VStr (lit "en"))] in
  Spec.specAccepts UriModel.uriRule body = true /\
  validateRequest UriModel.uriRule body
  = mkValidationResult false
      (Some [mkFieldError (lit "lang") None (VStr (lit "en"))]) None.
Proof. split; reflexivity. Qed.

(** The boundary cases the specification lists. *)
Example validateRequest_boundaries :
  isValid (validateRequest UriModel.uriRule (runBody [])) = false /\
  isValid (validateRequest UriModel.uriRule
             (runBody (repeat (VStr (lit "Hello")) 10))) = true /\
  isValid (validateRequest UriModel.uriRule
             (runBody (repeat (VStr (lit "Hello")) 11))) = false /\
  isValid (validateRequest UriModel.uriRule (runBody [VStr (lit "abcd")])) = false /\
  isValid (validateRequest UriModel.uriRule
             (runBody [VStr (repeat 97%N 1000)])) = true /\
  isValid (validateRequest UriModel.uriRule
             (runBody [VStr (repeat 97%N 1001)])) = false /\
  isValid (validateRequest UriModel.uriRule
             (VObj [(lit "documents", VStr (lit "ftp://example.com/policy.pdf"));
                    (lit "questions", VArr [VStr (lit "Hello")])])) = false.
Proof. vm_compute. repeat split. Qed.

Example validateRequest_short_question_errors :
  validateRequest UriModel.uriRule (runBody [VStr (lit "abcd")])
  = mkValidationResult false
      (Some [mkFieldError (lit "questions.0")
               (Some (lit "Each question must be at least 5 characters long"))
               (VStr (lit "abcd"));
             mkFieldError (lit "questions") None (VArr [VStr (lit "abcd")])])
      None.
Proof. reflexivity. Qed.

Example validateRequest_missing_body :
  validateRequest UriModel.uriRule VUndefined
  = mkValidationResult false
      (Some [mkFieldError (lit "validation")
               (Some (lit "Validation processing failed"))
               (VStr (lit "Cannot read properties of undefined (reading 'documents')"))])
      None.
Proof. reflexivity. Qed.

End ValidatorRuns.

(* ===================================================================== *)
(** * Properties: the upload route *)
(* ===================================================================== *)

Section UploadFacts.
Import Validator Routes.

Lemma checkUploadQuestions_none (parsed : list jsval) :
  checkUploadQuestions parsed = None <-> forallb Spec.isQuestion parsed = true.
Proof.
  induction parsed as [|q rest IH]; [split; reflexivity|].
  cbn [forallb]. rewrite andb_true_iff, <- IH.
  destruct q as [| | b | z | s | items | fields]; cbn [checkUploadQuestions Spec.isQuestion];
    try (split; [discriminate | intros [H _]; discriminate]).
  rewrite andb_true_iff, !Nat.leb_le.
  destruct (Nat.ltb_spec (length s) 5); [split; [discriminate | lia]|].
  destruct (Nat.ltb_spec 1000 (length s)); [split; [discriminate | lia]|].
  tauto.
Qed.

(** The custom rule of [uploadRequestSchema] holds the parsed questions
    to the constraints of the URL mode: an array of 1 to 10 strings, each
    of length 5 to 1000. *)
Lemma uploadQuestionsRule_accepts_iff (parsed : result jsval) (questions : list jsval) :
  uploadQuestionsRule parsed = inr questions
  <-> parsed = Return (VArr questions)
      /\ 1 <= length questions <= 10
      /\ forallb Spec.isQuestion questions = true.
Proof.
  destruct parsed as [[| | b | z | s | items | fields] | error];
    cbn [uploadQuestionsRule];
    try (split; [discriminate | intros [H _]; discriminate]).
  rewrite <- checkUploadQuestions_none.
  destruct (Nat.eqb_spec (length items) 0) as [Hz | Hnz].
  { split; [discriminate|]. intros [H [Hlen _]]. injection H as ->. lia. }
  destruct (Nat.ltb_spec 10 (length items)) as [Hbig | Hsmall].
  { split; [discriminate|]. intros [H [Hlen _]]. injection H as ->. lia. }
  destruct (checkUploadQuestions items) eqn:Hcheck.
  - split; [discriminate|]. intros [H [_ Hc]]. injection H as ->. congruence.
  - split.
    + intros H. injection H as ->. repeat split; try lia. exact Hcheck.
    + intros [H _]. injection H as ->. reflexivity.
Qed.

(** C5 (what the upload handler does). The handler passes every non-empty
    parsed array on to [processFileAndQuestions], including arrays the
    custom rule of [uploadRequestSchema] refuses: a question that is too
    short, an element that is not a string, more than ten questions, a
    question that is too long. *)
Theorem uploadHandler_skips_question_rules :
  (forall file q rest,
     uploadHandler (Some file) (Return (VArr (q :: rest)))
     = ProcessFile (path file) (q :: rest)) /\
  uploadQuestionsRule (Return (VArr [VStr (lit "Hi")])) = inl tooShort /\
  uploadQuestionsRule (Return (VArr [VNum 42])) = inl invalidType /\
  uploadQuestionsRule (Return (VArr (repeat (VStr (lit "Hello")) 11))) = inl tooMany /\
  uploadQuestionsRule (Return (VArr [VStr (repeat 97%N 1001)])) = inl tooLong.
Proof.
  split; [reflexivity|]. vm_compute. repeat split.
Qed.

Example uploadHandler_short_question :
  uploadHandler (Some (mkUploadedFile (lit "uploads/1-a.pdf") (lit "1-a.pdf") 1024))
                (Return (VArr [VStr (lit "Hi")]))
  = ProcessFile (lit "uploads/1-a.pdf") [VStr (lit "Hi")].
Proof. reflexivity. Qed.

Example uploadHandler_rejections :
  uploadHandler None (Return (VArr [VStr (lit "Hello")]))
  = Reply 400 (lit "No file provided") (lit "Please upload a PDF file") /\
  uploadHandler (Some (mkUploadedFile (lit "uploads/1-a.pdf") (lit "1-a.pdf") 1024))
                (Return (VArr []))
  = Reply 400 (lit "Validation Error") (lit "Questions must be a non-empty array") /\
  uploadHandler (Some (mkUploadedFile (lit "uploads/1-a.pdf") (lit "1-a.pdf") 1024))
                (Throw (mkJsError (lit "SyntaxError") (lit "Unexpected token") None None))
  = Reply 400 (lit "Invalid questions format")
              (lit "Questions must be a valid JSON array").
Proof. repeat split. Qed.

End UploadFacts.

(* ===================================================================== *)
(** * Properties: sanitizeString *)
(* ===================================================================== *)

Section SanitizeFacts.
Import Validator.

Lemma removeAll_length (inClass : codeUnit -> bool) (s : jsstring) :
  length (removeAll inClass s) <= length s.
Proof. apply filter_length_le. Qed.

Lemma removeAll_In (inClass : codeUnit -> bool) (s : jsstring) (c : codeUnit) :
  In c (removeAll inClass s) -> In c s /\ inClass c = false.
Proof.
  unfold removeAll. rewrite filter_In, negb_true_iff. trivial.
Qed.

Lemma firstn_min_length {A} (n : nat) (l : list A) :
  firstn (Nat.min n (length l)) l = firstn n l.
Proof.
  destruct (Nat.le_gt_cases n (length l)) as [Hle | Hgt].
  - now rewrite Nat.min_l.
  - rewrite Nat.min_r, firstn_all, firstn_all2 by lia. reflexivity.
Qed.

(** [substring(0, m)] keeps the first [m] code units. *)
Lemma substring_to (s : jsstring) (m : Z) :
  substring s 0 (Some m) = firstn (Z.to_nat m) s.
Proof.
  unfold substring, clampIndex. cbn [Z.to_nat Nat.min Nat.max].
  rewrite Nat.sub_0_r. cbn [skipn]. apply firstn_min_length.
Qed.

Lemma In_firstn {A} (n : nat) (l : list A) (a : A) : In a (firstn n l) -> In a l.
Proof.
  intros H. rewrite <- (firstn_skipn n l). apply in_or_app. now left.
Qed.

(** C9, as the code has it. [sanitizeString] returns a string for every
    input (the empty string when the input is not a string); the result
    holds no null code unit, and its length is at most the limit in
    force: [options.maxLength] when it is positive, 1000 when it is
    absent or zero (under a negative [maxLength] the result is empty). *)
Theorem sanitizeString_bounded (input : jsval) (options : sanitizeOptions) :
  let result := sanitizeString input options in
  match input with VStr _ => True | _ => result = [] end /\
  ~ In 0%N result /\
  (Z.of_nat (length result) <= Z.max 0 (effectiveMaxLength options))%Z.
Proof.
  intros result. subst result.
  destruct input as [| | b | z | s | items | fields];
    try (cbn [sanitizeString length In]; repeat split; try tauto; lia).
  split; [exact I|].
  unfold sanitizeString. fold (effectiveMaxLength options).
  set (limit := effectiveMaxLength options).
  set (clean := removeAll (N.eqb 0) (trim s)).
  set (cut := if (Z.of_nat (length clean) >? limit)%Z
              then substring clean 0 (Some limit) else clean).
  assert (Hclean : ~ In 0%N clean).
  { intros H. apply removeAll_In in H. destruct H as [_ H]. discriminate. }
  assert (Hcut_in : forall c, In c cut -> In c clean).
  { intros c. subst cut. destruct (Z.of_nat (length clean) >? limit)%Z; [|trivial].
    rewrite substring_to. apply In_firstn. }
  assert (Hcut_len : (Z.of_nat (length cut) <= Z.max 0 limit)%Z).
  { subst cut. destruct (Z.of_nat (length clean) >? limit)%Z eqn:Hgt.
    - rewrite substring_to.
      assert (length (firstn (Z.to_nat limit) clean) <= Z.to_nat limit)
        by apply firstn_le_length.
      lia.
    - rewrite Z.gtb_ltb in Hgt. apply Z.ltb_ge in Hgt. lia. }
  destruct (negb (allowControlChars options)).
  - split.
    + intros H. apply removeAll_In in H. destruct H as [H _]. auto.
    + assert (length (removeAll isControlChar cut) <= length cut)
        by apply removeAll_length.
      lia.
  - split; [auto | exact Hcut_len].
Qed.

(** C9, as stated, fails when the configured [maxLength] is 0: the
    default of 1000 is applied and a 5-unit string comes back whole. *)
Lemma sanitizeString_ignores_zero_maxLength :
  sanitizeString (VStr (lit "hello")) (mkSanitizeOptions (Some 0%Z) false) = lit "hello" /\
  ~ (Z.of_nat (length (sanitizeString (VStr (lit "hello"))
                         (mkSanitizeOptions (Some 0%Z) false))) <= 0)%Z.
Proof. split; [reflexivity|]. vm_compute. intros H. now apply H. Qed.

Example sanitizeString_runs :
  sanitizeString (VStr (lit "  hello  ")) (mkSanitizeOptions (Some 3%Z) false) = lit "hel" /\
  sanitizeString (VStr (lit "  hello  ")) (mkSanitizeOptions (Some (-3)%Z) false) = [] /\
  sanitizeString (VStr [32; 0; 104; 1; 9; 105; 0; 32]%N) (mkSanitizeOptions None false)
    = [104; 9; 105]%N /\
  sanitizeString (VStr [32; 0; 104; 1; 9; 105; 0; 32]%N) (mkSanitizeOptions None true)
    = [104; 1; 9; 105]%N /\
  sanitizeString (VNum 7) (mkSanitizeOptions None false) = [].
Proof. repeat split. Qed.

End SanitizeFacts.

(* ===================================================================== *)
(** * Properties: the other authentication helpers *)
(* ===================================================================== *)

Section AuthHelperFacts.
Import Auth AuthHelpers.

(** X1. [optionalAuthMiddleware] marks the request as authenticated
    exactly on the requests [authMiddleware] lets through, and leaves
    [req.auth] unset on every request [authMiddleware] answers with 401. *)
Theorem optionalAuthMiddleware_agrees (authHeader expectedToken : option jsstring) :
  optionalAuthMiddleware authHeader expectedToken =
  match authMiddleware authHeader expectedToken with
  | Next => Some (mkAuthInfo true (lit "Bearer"))
  | Respond _ _ => None
  end.
Proof.
  unfold optionalAuthMiddleware, authMiddleware.
  destruct authHeader as [[|c h]|]; try reflexivity.
  destruct (startsWith (c :: h) (lit "Bearer ")); [|reflexivity].
  destruct expectedToken as [expected|]; [|reflexivity].
  cbv [negb]. destruct (jsstring_eqb _ expected); reflexivity.
Qed.

(** X2. The Authorization header [getAuthHeaders] builds passes
    [authMiddleware] exactly when a bearer token is configured; with none
    configured the header reads [Bearer undefined] and is refused. *)
Theorem getAuthHeaders_accepted_iff (expectedToken : option jsstring) :
  authMiddleware (Some (Authorization (getAuthHeaders expectedToken))) expectedToken = Next
  <-> expectedToken <> None.
Proof.
  rewrite authMiddleware_next_iff. split.
  - intros [token [_ ->]]. discriminate.
  - destruct expectedToken as [token|]; [|congruence].
    intros _. exists token. split; reflexivity.
Qed.

(** X3. [validateToken] and [authMiddleware] agree: a header made of
    [Bearer ] and a token is let through exactly when [validateToken]
    accepts that token. *)
Theorem validateToken_agrees (token : jsstring) (expectedToken : option jsstring) :
  authMiddleware (Some (lit "Bearer " ++ token)) expectedToken = Next
  <-> validateToken token expectedToken = true.
Proof.
  rewrite authMiddleware_next_iff. unfold validateToken. split.
  - intros [token' [Hh ->]]. injection Hh as Hh.
    subst token'. apply jsstring_eqb_refl.
  - destruct expectedToken as [expected|]; [|discriminate].
    intros H. apply jsstring_eqb_eq in H. subst expected.
    exists token. split; reflexivity.
Qed.

End AuthHelperFacts.

(* ===================================================================== *)
(** * Properties: configuration and start-up *)
(* ===================================================================== *)

Section ConfigFacts.
Import Auth Config.

Lemma validateEnvironment_cases (env : environment) :
  validateEnvironment env =
  match isSet env (lit "GEMINI_API_KEY"), isSet env (lit "AUTH_BEARER_TOKEN") with
  | true, true => Return tt
  | true, false =>
      Throw (newError (lit "Missing required environment variables: AUTH_BEARER_TOKEN"))
  | false, true =>
      Throw (newError (lit "Missing required environment variables: GEMINI_API_KEY"))
  | false, false =>
      Throw (newError
               (lit "Missing required environment variables: GEMINI_API_KEY, AUTH_BEARER_TOKEN"))
  end.
Proof.
  unfold validateEnvironment, REQUIRED_ENV_VARS. cbn [filter].
  destruct (isSet env (lit "GEMINI_API_KEY")), (isSet env (lit "AUTH_BEARER_TOKEN"));
    reflexivity.
Qed.

(** X4. [validateEnvironment] returns exactly when both required
    variables are set to non-empty strings; otherwise it throws an error
    whose message lists the missing ones, in the order of
    [REQUIRED_ENV_VARS]. *)
Theorem validateEnvironment_outcome (env : environment) :
  (validateEnvironment env = Return tt
   <-> isSet env (lit "GEMINI_API_KEY") = true
       /\ isSet env (lit "AUTH_BEARER_TOKEN") = true) /\
  validateEnvironment env =
  match isSet env (lit "GEMINI_API_KEY"), isSet env (lit "AUTH_BEARER_TOKEN") with
  | true, true => Return tt
  | true, false =>
      Throw (newError (lit "Missing required environment variables: AUTH_BEARER_TOKEN"))
  | false, true =>
      Throw (newError (lit "Missing required environment variables: GEMINI_API_KEY"))
  | false, false =>
      Throw (newError
               (lit "Missing required environment variables: GEMINI_API_KEY, AUTH_BEARER_TOKEN"))
  end.
Proof.
  split; [|apply validateEnvironment_cases].
  rewrite validateEnvironment_cases.
  destruct (isSet env (lit "GEMINI_API_KEY")), (isSet env (lit "AUTH_BEARER_TOKEN"));
    split; try discriminate; try tauto; intros [H1 H2]; discriminate.
Qed.

(** X5. At the start of the server a missing [GEMINI_API_KEY] is reported
    by the constructor of [GeminiService], which runs when the routes
    are required, before [validateEnvironment] is called; so
    [validateEnvironment] only ever gets to report a missing
    [AUTH_BEARER_TOKEN]. The start succeeds exactly when both variables
    are set. *)
Theorem serverStart_outcome (env : environment) :
  serverStart env =
  if negb (isSet env (lit "GEMINI_API_KEY")) then
    Throw (newError (lit "GEMINI_API_KEY is required"))
  else if negb (isSet env (lit "AUTH_BEARER_TOKEN")) then
    Throw (newError (lit "Missing required environment variables: AUTH_BEARER_TOKEN"))
  else Return tt.
Proof.
  unfold serverStart, newGeminiService. rewrite validateEnvironment_cases.
  destruct (isSet env (lit "GEMINI_API_KEY")), (isSet env (lit "AUTH_BEARER_TOKEN"));
    reflexivity.
Qed.

Lemma serverStart_token (env : environment) :
  serverStart env = Return tt ->
  exists c token, getenv env (lit "AUTH_BEARER_TOKEN") = Some (c :: token).
Proof.
  unfold serverStart, newGeminiService. rewrite validateEnvironment_cases.
  destruct (isSet env (lit "GEMINI_API_KEY")); [|discriminate].
  unfold isSet. cbv [negb].
  destruct (getenv env (lit "AUTH_BEARER_TOKEN")) as [[|c token]|]; try discriminate.
  intros _. now exists c, token.
Qed.

(** X6. Once the server has started, [authMiddleware], which reads the
    token from the environment, lets a request through exactly when its
    header is [Bearer ] followed by the configured token, and that token
    is not empty: the bare header [Bearer ] is never accepted. *)
Theorem started_server_requires_token (env : environment)
    (authHeader : option jsstring) :
  serverStart env = Return tt ->
  (authMiddleware authHeader (getenv env (lit "AUTH_BEARER_TOKEN")) = Next
   <-> exists token, token <> []
                     /\ authHeader = Some (lit "Bearer " ++ token)
                     /\ getenv env (lit "AUTH_BEARER_TOKEN") = Some token) /\
  authMiddleware (Some (lit "Bearer ")) (getenv env (lit "AUTH_BEARER_TOKEN")) <> Next.
Proof.
  intros Hstart. destruct (serverStart_token env Hstart) as [c [token Htoken]].
  split.
  - rewrite authMiddleware_next_iff. split.
    + intros [t [Hh Ht]]. exists t. repeat split; try assumption.
      intros ->. rewrite Htoken in Ht. discriminate.
    + intros [t [_ [Hh Ht]]]. now exists t.
  - rewrite authMiddleware_next_iff. intros [t [Hh Ht]].
    injection Hh as Hh. subst t. rewrite Htoken in Ht. discriminate.
Qed.

(** The start-up property on an environment with both variables set. *)
Lemma started_server_requires_token_witness :
  serverStart completeEnv = Return tt /\
  authMiddleware (Some (lit "Bearer ")) (getenv completeEnv (lit "AUTH_BEARER_TOKEN"))
  <> Next.
Proof.
  split; [reflexivity|].
  apply (started_server_requires_token completeEnv None). reflexivity.
Defined.

End ConfigFacts.

(* ===================================================================== *)
(** * Properties: the services, continued *)
(* ===================================================================== *)

Section ServiceFacts.
Import GeminiService PdfService RagService.
Context {E : Externals}.

Lemma stateBefore_trace (questions : list jsstring) (documentContent : jsstring) :
  forall st,
    trace (stateBefore (length questions) questions documentContent st)
    = trace st
      ++ map (fun question => EvGenerateContent (buildPrompt question documentContent))
             questions.
Proof.
  induction questions as [|question rest IH]; intros st.
  - simpl. now rewrite app_nil_r.
  - cbn [length stateBefore map]. rewrite IH, generateAnswer_run. cbv zeta.
    cbn [fst trace]. now rewrite <- app_assoc.
Qed.

(** X7. [processQuestions] calls the model exactly once per question, in
    the order of the questions, each time on the prompt built from that
    question and the one shared context, and makes no other external
    call, whichever of the calls fail. *)
Theorem processQuestions_calls (questions : list jsstring) (documentContent : jsstring)
    (st : State) :
  trace (fst (processQuestions questions documentContent st))
  = trace st
    ++ map (fun question => EvGenerateContent (buildPrompt question documentContent))
           questions.
Proof.
  rewrite processQuestions_slots. cbn [fst]. apply stateBefore_trace.
Qed.

(** X8. The URL variant of the pipeline never throws: whatever the
    download, the parser and the model do, [processDocumentAndQuestions]
    returns one answer per question, so its [DocumentProcessingError]
    branch is never taken. *)
Theorem processDocumentAndQuestions_total (documentUrl : jsstring)
    (questions : list jsstring) (st : State) :
  exists st' result,
    processDocumentAndQuestions documentUrl questions st = (st', Return result) /\
    length result = length questions.
Proof.
  rewrite processDocumentAndQuestions_run, processQuestions_slots.
  do 2 eexists. split; [reflexivity | apply slots_length].
Qed.

(** X9. When [extractTextFromFile] returns a text, the local-path variant
    of the pipeline processes the questions with that text as context and
    returns one answer per question. *)
Theorem processFileAndQuestions_on_extracted_text (filePath : jsstring)
    (questions : list jsstring) (st st1 : State) (text : jsstring) :
  extractTextFromFile filePath st = (st1, Return text) ->
  processFileAndQuestions filePath questions st
  = processQuestions questions text st1 /\
  exists st' result,
    processFileAndQuestions filePath questions st = (st', Return result) /\
    length result = length questions.
Proof.
  intros Hext.
  assert (Hrun : processFileAndQuestions filePath questions st
                 = processQuestions questions text st1).
  { unfold processFileAndQuestions, tryCatch, bind. rewrite Hext.
    rewrite processQuestions_slots. reflexivity. }
  split; [exact Hrun|]. rewrite Hrun, processQuestions_slots.
  do 2 eexists. split; [reflexivity | apply slots_length].
Qed.

Lemma checkText_state (data : pdfData) (st st' : State) (r : result jsstring) :
  checkText data st = (st', r) -> st' = st.
Proof.
  unfold checkText, throw, ret.
  destruct (text data) as [t|]; [|intros H; now injection H].
  destruct (_ || _); intros H; now injection H.
Qed.

Lemma checkText_accepts (data : pdfData) (st : State) (t : jsstring) :
  text data = Some t -> trim t <> [] -> checkText data st = (st, Return t).
Proof.
  intros Ht Htrim. unfold checkText. rewrite Ht.
  destruct t as [|c t]; [now contradiction Htrim|].
  cbn [orb]. destruct (Nat.eqb_spec (length (trim (c :: t))) 0) as [Hz|]; [|reflexivity].
  apply length_zero_iff_nil in Hz. contradiction.
Qed.

(** X10. [extractTextFromUrl] returns a text exactly when the download
    succeeds, the parser succeeds on the downloaded bytes, and the parsed
    text is not blank; it then returns the parsed text as it is (not
    trimmed), after exactly these two external calls. *)
Theorem extractTextFromUrl_returns_iff (pdfUrl : jsstring) (st st' : State)
    (t : jsstring) :
  extractTextFromUrl pdfUrl st = (st', Return t)
  <-> exists buffer w1 data w2,
        axiosGet pdfUrl (world st) = (w1, Return buffer) /\
        pdf buffer w1 = (w2, Return data) /\
        text data = Some t /\ trim t <> [] /\
        st' = mkState w2 (trace st ++ [EvAxiosGet pdfUrl; EvPdf buffer]).
Proof.
  split.
  - unfold extractTextFromUrl. intros H.
    apply tryCatch_rethrow_return in H; [|apply urlHandler_throws].
    unfold bind, callAxiosGet, callPdf, external in H.
    destruct (axiosGet pdfUrl (world st)) as [w1 [buffer|e]] eqn:Hget; [|discriminate].
    cbn [world trace] in H.
    destruct (pdf buffer w1) as [w2 [data|e]] eqn:Hpdf; [|discriminate].
    pose proof (checkText_state _ _ H) as ->.
    apply checkText_return in H. destruct H as [Ht Htrim].
    exists buffer, w1, data, w2. rewrite <- app_assoc. now repeat split.
  - intros [buffer [w1 [data [w2 [Hget [Hpdf [Ht [Htrim ->]]]]]]]].
    unfold extractTextFromUrl, tryCatch, bind, callAxiosGet, callPdf, external.
    rewrite Hget. cbn [world trace]. rewrite Hpdf.
    rewrite (checkText_accepts data _ Ht Htrim), <- app_assoc. reflexivity.
Qed.

(** X11. [extractTextFromFile] returns a text exactly when the path
    exists, the file is read, the parser succeeds and the parsed text is
    not blank; it then returns the parsed text as it is, after exactly
    these three external calls. *)
Theorem extractTextFromFile_returns_iff (filePath : jsstring) (st st' : State)
    (t : jsstring) :
  extractTextFromFile filePath st = (st', Return t)
  <-> exists w0 buffer w1 data w2,
        pathExists filePath (world st) = (w0, true) /\
        readFile filePath w0 = (w1, Return buffer) /\
        pdf buffer w1 = (w2, Return data) /\
        text data = Some t /\ trim t <> [] /\
        st' = mkState w2 (trace st ++ [EvPathExists filePath; EvReadFile filePath;
                                       EvPdf buffer]).
Proof.
  split.
  - unfold extractTextFromFile. intros H.
    apply tryCatch_rethrow_return in H; [|intros; eexists; reflexivity].
    unfold bind, callPathExists, callReadFile, callPdf, external in H.
    destruct (pathExists filePath (world st)) as [w0 [|]] eqn:Hex; [|discriminate].
    cbn [world trace negb] in H.
    destruct (readFile filePath w0) as [w1 [buffer|e]] eqn:Hread; [|discriminate].
    cbn [world trace] in H.
    destruct (pdf buffer w1) as [w2 [data|e]] eqn:Hpdf; [|discriminate].
    pose proof (checkText_state _ _ H) as ->.
    apply checkText_return in H. destruct H as [Ht Htrim].
    exists w0, buffer, w1, data, w2. rewrite <- !app_assoc. now repeat split.
  - intros [w0 [buffer [w1 [data [w2 [Hex [Hread [Hpdf [Ht [Htrim ->]]]]]]]]]].
    unfold extractTextFromFile, tryCatch, bind, callPathExists, callReadFile,
      callPdf, external.
    rewrite Hex. cbn [world trace negb]. rewrite Hread. cbn [world trace].
    rewrite Hpdf, (checkText_accepts data _ Ht Htrim), <- !app_assoc. reflexivity.
Qed.

(** X12. A failed step stops the extraction at once. When the download
    fails, [extractTextFromUrl] throws without calling the parser, with a
    message chosen by the error: the status line when the server
    answered, a fixed text for [ENOTFOUND] and for [ETIMEDOUT], the
    error's own message otherwise. When the path does not exist,
    [extractTextFromFile] throws without reading or parsing anything. *)
Theorem extraction_stops_at_first_failure (pdfUrl filePath : jsstring) (st : State) :
  (forall w error,
     axiosGet pdfUrl (world st) = (w, Throw error) ->
     extractTextFromUrl pdfUrl st =
     (mkState w (trace st ++ [EvAxiosGet pdfUrl]),
      Throw (newError
               match response error with
               | Some (status, statusText) =>
                   lit "Failed to download PDF: " ++ decimal status
                     ++ lit " " ++ statusText
               | None =>
                   if PdfService.codeIs error (lit "ENOTFOUND") then
                     lit "PDF document not found at the provided URL"
                   else if PdfService.codeIs error (lit "ETIMEDOUT") then
                     lit "Timeout while downloading PDF document"
                   else lit "PDF processing failed: " ++ JS.message error
               end))) /\
  (forall w,
     pathExists filePath (world st) = (w, false) ->
     extractTextFromFile filePath st =
     (mkState w (trace st ++ [EvPathExists filePath]),
      Throw (newError (lit "PDF file processing failed: PDF file not found")))).
Proof.
  split.
  - intros w error Hget.
    unfold extractTextFromUrl, tryCatch, bind, callAxiosGet, external.
    rewrite Hget. destruct (response error) as [[status statusText]|]; [reflexivity|].
    destruct (PdfService.codeIs error (lit "ENOTFOUND")); [reflexivity|].
    destruct (PdfService.codeIs error (lit "ETIMEDOUT")); reflexivity.
  - intros w Hex.
    unfold extractTextFromFile, tryCatch, bind, callPathExists, external.
    rewrite Hex. reflexivity.
Qed.

End ServiceFacts.

Section ServiceRuns.
Import GeminiService PdfService RagService Scripted.

(** The local-path variant on a staged document. *)
Lemma processFileAndQuestions_on_extracted_text_witness :
  exists st' result,
    @processFileAndQuestions scripted (lit "uploads/policy.pdf")
      [lit "What is the notice period?"] (start stagedPolicy)
    = (st', Return result) /\
    length result = 1.
Proof.
  eapply (@processFileAndQuestions_on_extracted_text scripted
            (lit "uploads/policy.pdf") [lit "What is the notice period?"]
            (start stagedPolicy)).
  reflexivity.
Defined.

End ServiceRuns.

(* ===================================================================== *)
(** * Properties: sanitising questions *)
(* ===================================================================== *)

Section SubseqFacts.
Context {A : Type}.

Lemma Subseq_refl (l : list A) : Subseq l l.
Proof. induction l; constructor; assumption. Qed.

Lemma Subseq_nil_l (l : list A) : Subseq [] l.
Proof. induction l; constructor; assumption. Qed.

Lemma Subseq_trans (l1 l2 l3 : list A) : Subseq l1 l2 -> Subseq l2 l3 -> Subseq l1 l3.
Proof.
  intros H12 H23. revert l1 H12.
  induction H23 as [|a l2 l3 H23 IH|a l2 l3 H23 IH]; intros l1 H12.
  - exact H12.
  - constructor. now apply IH.
  - inversion H12 as [|? ? ? H|? ? ? H]; subst.
    + apply Subseq_skip. exact (IH _ H).
    + apply Subseq_keep. exact (IH _ H).
Qed.

Lemma Subseq_app (a b c d : list A) :
  Subseq a b -> Subseq c d -> Subseq (a ++ c) (b ++ d).
Proof.
  intros Hab Hcd. induction Hab; simpl; try constructor; assumption.
Qed.

Lemma Subseq_rev (a b : list A) : Subseq a b -> Subseq (rev a) (rev b).
Proof.
  induction 1 as [|x l1 l2 H IH|x l1 l2 H IH]; simpl.
  - constructor.
  - rewrite <- (app_nil_r (rev l1)). apply Subseq_app; [exact IH|].
    apply Subseq_nil_l.
  - apply Subseq_app; [exact IH | apply Subseq_refl].
Qed.

Lemma Subseq_filter (f : A -> bool) (l : list A) : Subseq (filter f l) l.
Proof.
  induction l as [|a l IH]; simpl; [constructor|].
  destruct (f a); constructor; assumption.
Qed.

Lemma Subseq_firstn (n : nat) (l : list A) : Subseq (firstn n l) l.
Proof.
  revert n. induction l as [|a l IH]; intros [|n]; simpl.
  - apply Subseq_nil.
  - apply Subseq_nil.
  - apply Subseq_nil_l.
  - apply Subseq_keep, IH.
Qed.

End SubseqFacts.

Section SanitizeMore.
Import Validator.

Lemma Subseq_dropWhile (p : codeUnit -> bool) (s : jsstring) : Subseq (dropWhile p s) s.
Proof.
  induction s as [|c s IH]; simpl; [apply Subseq_nil|].
  destruct (p c); [apply Subseq_skip, IH | apply Subseq_refl].
Qed.

Lemma Subseq_trim (s : jsstring) : Subseq (trim s) s.
Proof.
  unfold trim, trimEnd, trimStart.
  apply Subseq_trans with (l2 := dropWhile isWhiteSpace s); [|apply Subseq_dropWhile].
  rewrite <- (rev_involutive (dropWhile isWhiteSpace s)) at 2.
  apply Subseq_rev, Subseq_dropWhile.
Qed.

(** [sanitizeString] on a string, step by step. *)
Lemma sanitizeString_steps (s : jsstring) (options : sanitizeOptions) :
  sanitizeString (VStr s) options =
  let clean := removeAll (N.eqb 0) (trim s) in
  let cut :=
    if (Z.of_nat (length clean) >? effectiveMaxLength options)%Z
    then firstn (Z.to_nat (effectiveMaxLength options)) clean
    else clean in
  if allowControlChars options then cut else removeAll isControlChar cut.
Proof.
  unfold sanitizeString. fold (effectiveMaxLength options). cbv zeta.
  rewrite substring_to. destruct (allowControlChars options); reflexivity.
Qed.

(** X13. [sanitizeString] only removes code units: its result is the
    input string with some code units left out, in the same order; and
    unless [allowControlChars] is set, no control character (0-8, 11, 12,
    14-31, 127) is left in it. *)
Theorem sanitizeString_only_removes (s : jsstring) (options : sanitizeOptions) :
  Subseq (sanitizeString (VStr s) options) s /\
  (allowControlChars options = false ->
   Forall (fun c => isControlChar c = false) (sanitizeString (VStr s) options)).
Proof.
  rewrite sanitizeString_steps. cbv zeta.
  set (clean := removeAll (N.eqb 0) (trim s)).
  set (cut := if (Z.of_nat (length clean) >? effectiveMaxLength options)%Z
              then firstn (Z.to_nat (effectiveMaxLength options)) clean else clean).
  assert (Hclean : Subseq clean s).
  { apply Subseq_trans with (l2 := trim s); [apply Subseq_filter | apply Subseq_trim]. }
  assert (Hcut : Subseq cut s).
  { subst cut. destruct (_ >? _)%Z; [|exact Hclean].
    apply Subseq_trans with (l2 := clean); [apply Subseq_firstn | exact Hclean]. }
  split.
  - destruct (allowControlChars options); [exact Hcut|].
    apply Subseq_trans with (l2 := cut); [apply Subseq_filter | exact Hcut].
  - intros ->. apply Forall_forall. intros c Hc.
    now apply removeAll_In in Hc.
Qed.

Lemma removeAll_id (inClass : codeUnit -> bool) (s : jsstring) :
  forallb (fun c => negb (inClass c)) s = true -> removeAll inClass s = s.
Proof. apply forallb_filter_id. Qed.

Lemma sanitizeString_clean (s : jsstring) (options : sanitizeOptions) :
  trim s = s ->
  forallb (fun c => negb (isControlChar c)) s = true ->
  (Z.of_nat (length s) <= effectiveMaxLength options)%Z ->
  sanitizeString (VStr s) options = s.
Proof.
  intros Htrim Hctl Hlen. rewrite sanitizeString_steps. cbv zeta. rewrite Htrim.
  assert (Hnull : removeAll (N.eqb 0) s = s).
  { apply removeAll_id. rewrite forallb_forall in *. intros c Hc.
    specialize (Hctl c Hc). destruct (N.eqb_spec 0 c) as [<-|]; [discriminate | reflexivity]. }
  rewrite Hnull.
  destruct (Z.gtb_spec (Z.of_nat (length s)) (effectiveMaxLength options)); [lia|].
  destruct (allowControlChars options); [reflexivity|].
  now apply removeAll_id.
Qed.

(** X14. [sanitizeString] leaves a clean string alone: a string with no
    white space at either end, no control character, and no more code
    units than the limit in force comes back unchanged. *)
Theorem sanitizeString_keeps_clean (s : jsstring) (options : sanitizeOptions) :
  trim s = s ->
  forallb (fun c => negb (isControlChar c)) s = true ->
  (Z.of_nat (length s) <= effectiveMaxLength options)%Z ->
  sanitizeString (VStr s) options = s.
Proof. apply sanitizeString_clean. Qed.

Lemma sanitizeString_keeps_clean_witness :
  sanitizeString (VStr (lit "What is covered?")) (mkSanitizeOptions None false)
  = lit "What is covered?".
Proof.
  apply sanitizeString_keeps_clean; [reflexivity | reflexivity | vm_compute; discriminate].
Defined.

Lemma sanitizeQuestion_length (s : jsstring) : length (sanitizeQuestion s) <= 1000.
Proof.
  unfold sanitizeQuestion. rewrite sanitizeString_steps. cbv zeta.
  change (effectiveMaxLength (mkSanitizeOptions (Some 1000%Z) false)) with 1000%Z.
  cbn [allowControlChars].
  set (clean := removeAll (N.eqb 0) (trim s)).
  etransitivity; [apply removeAll_length|].
  destruct (Z.gtb_spec (Z.of_nat (length clean)) 1000).
  - etransitivity; [apply firstn_le_length|]. lia.
  - lia.
Qed.

End SanitizeMore.

Section QuestionSanitizerFacts.
Import Validator QuestionSanitizer.

Lemma sanitizeLoop_spec (questions : list jsval) :
  forall (i : nat) (sanitizedQuestions errors : list jsstring),
    (forall news,
       Forall2 kept questions news ->
       sanitizeLoop i questions sanitizedQuestions errors
       = (sanitizedQuestions ++ news, errors)) /\
    length errors <= length (snd (sanitizeLoop i questions sanitizedQuestions errors)) /\
    (length (snd (sanitizeLoop i questions sanitizedQuestions errors)) = length errors ->
     exists news,
       fst (sanitizeLoop i questions sanitizedQuestions errors) = sanitizedQuestions ++ news
       /\ Forall2 kept questions news).
Proof.
  induction questions as [|question rest IH]; intros i acc errs.
  - cbn [sanitizeLoop fst snd]. repeat split.
    + intros news H. inversion H. now rewrite app_nil_r.
    + lia.
    + intros _. exists []. split; [now rewrite app_nil_r | constructor].
  - assert (Hbad : forall msg,
              (forall news, Forall2 kept (question :: rest) news -> False) ->
              (forall news,
                 Forall2 kept (question :: rest) news ->
                 sanitizeLoop (S i) rest acc (errs ++ [msg]) = (acc ++ news, errs)) /\
              length errs <= length (snd (sanitizeLoop (S i) rest acc (errs ++ [msg]))) /\
              (length (snd (sanitizeLoop (S i) rest acc (errs ++ [msg]))) = length errs ->
               exists news,
                 fst (sanitizeLoop (S i) rest acc (errs ++ [msg])) = acc ++ news
                 /\ Forall2 kept (question :: rest) news)).
    { intros msg Hno. destruct (IH (S i) acc (errs ++ [msg])) as [_ [Hle _]].
      rewrite length_app in Hle. cbn [length] in Hle.
      repeat split.
      - intros news H. destruct (Hno news H).
      - lia.
      - intros Heq. lia. }
    destruct question as [| | b | z | s | items | fields]; cbn [sanitizeLoop];
      try (apply Hbad; intros news H; inversion H as [|? ? ? ? [s' [Hs' _]]];
           discriminate).
    fold (sanitizeQuestion s).
    destruct (Nat.ltb_spec (length (sanitizeQuestion s)) 5) as [Hshort | Hok].
    + apply Hbad. intros news H. inversion H as [|? ? ? ? [s' [Hs' [Hq Hlen]]]]; subst.
      injection Hs' as <-. lia.
    + destruct (IH (S i) (acc ++ [sanitizeQuestion s]) errs) as [Hall [Hle Hsome]].
      repeat split.
      * intros news H. inversion H as [|? q ? news' [s' [Hs' [Hq _]]] Hrest]; subst.
        injection Hs' as <-. rewrite (Hall news' Hrest), <- app_assoc. reflexivity.
      * exact Hle.
      * intros Heq. destruct (Hsome Heq) as [news [Hfst Hrest]].
        exists (sanitizeQuestion s :: news). split.
        -- rewrite Hfst, <- app_assoc. reflexivity.
        -- constructor; [|exact Hrest]. exists s. repeat split; try assumption.
           apply sanitizeQuestion_length.
Qed.

(** X15. [validateAndSanitizeQuestions] accepts exactly the arrays of 1
    to 10 strings whose sanitised forms all have at least 5 code units.
    It then returns the sanitised forms, one per question and in the
    order of the questions, each of 5 to 1000 code units: an overlong
    question is cut to 1000, not refused. *)
Theorem validateAndSanitizeQuestions_valid_iff (questions : jsval)
    (sanitized : list jsstring) :
  validateAndSanitizeQuestions questions = Valid sanitized
  <-> exists items,
        questions = VArr items /\ 1 <= length items <= 10
        /\ Forall2 kept items sanitized.
Proof.
  unfold validateAndSanitizeQuestions.
  destruct questions as [| | b | z | s | items | fields];
    try (split; [discriminate | intros [items [H _]]; discriminate]).
  destruct (sanitizeLoop_spec items 0 [] []) as [Hall [_ Hsome]].
  destruct (Nat.eqb_spec (length items) 0) as [Hz | Hnz].
  { split; [discriminate|]. intros [items' [H [Hlen _]]]. injection H as <-. lia. }
  destruct (Nat.ltb_spec 10 (length items)) as [Hbig | Hsmall].
  { split; [discriminate|]. intros [items' [H [Hlen _]]]. injection H as <-. lia. }
  destruct (sanitizeLoop 0 items [] []) as [good errs] eqn:Hloop.
  cbn [fst snd length] in Hsome.
  split.
  - destruct (Nat.ltb_spec 0 (length errs)) as [Hpos | Hnone]; [discriminate|].
    intros H. injection H as <-.
    destruct Hsome as [news [Hfst Hkept]]; [lia|].
    exists items. repeat split; try lia. cbn [app] in Hfst. now subst good.
  - intros [items' [H [_ Hkept]]]. injection H as <-.
    specialize (Hall sanitized Hkept). cbn [app] in Hall.
    injection Hall as -> ->. reflexivity.
Qed.

(** X25. [validateAndSanitizeQuestions] returns clean questions as they
    are: an array of 1 to 10 strings, each of 5 to 1000 code units, with
    no white space at either end and no control character, is accepted
    and comes back unchanged. *)
Theorem validateAndSanitizeQuestions_keeps_clean (questions : list jsstring) :
  1 <= length questions <= 10 ->
  Forall (fun q => 5 <= length q <= 1000 /\ trim q = q
                   /\ forallb (fun c => negb (isControlChar c)) q = true) questions ->
  validateAndSanitizeQuestions (VArr (map VStr questions)) = Valid questions.
Proof.
  intros Hlen Hclean.
  assert (Hkept : Forall2 kept (map VStr questions) questions).
  { clear Hlen. induction Hclean as [|q rest [Hq [Htrim Hctl]] _ IH]; [constructor|].
    cbn [map]. constructor; [|exact IH].
    exists q. repeat split; try lia.
    unfold sanitizeQuestion. symmetry. apply sanitizeString_clean; try assumption.
    change (effectiveMaxLength (mkSanitizeOptions (Some 1000%Z) false)) with 1000%Z. lia. }
  unfold validateAndSanitizeQuestions. rewrite length_map.
  destruct (Nat.eqb_spec (length questions) 0); [lia|].
  destruct (Nat.ltb_spec 10 (length questions)); [lia|].
  destruct (sanitizeLoop_spec (map VStr questions) 0 [] []) as [Hall _].
  now rewrite (Hall questions Hkept).
Qed.

Lemma validateAndSanitizeQuestions_keeps_clean_witness :
  validateAndSanitizeQuestions
    (VArr (map VStr [lit "What is covered?"; lit "Who pays?"]))
  = Valid [lit "What is covered?"; lit "Who pays?"].
Proof.
  apply validateAndSanitizeQuestions_keeps_clean; [cbn; lia|].
  repeat constructor; cbn; lia.
Defined.

Example validateAndSanitizeQuestions_runs :
  validateAndSanitizeQuestions
    (VArr [VStr (lit "  What is covered?  "); VStr (repeat 97%N 1200)])
  = Valid [lit "What is covered?"; repeat 97%N 1000] /\
  validateAndSanitizeQuestions (VArr [VStr (lit "Why?"); VNum 7; VStr (lit "Hello")])
  = InvalidItems [lit "Question 1: Must be at least 5 characters long";
                  lit "Question 2: Must be a string"] /\
  validateAndSanitizeQuestions (VArr []) = Invalid (lit "At least one question is required") /\
  validateAndSanitizeQuestions (VStr (lit "Hello"))
  = Invalid (lit "Questions must be an array").
Proof. vm_compute. repeat split. Qed.

End QuestionSanitizerFacts.

(* ===================================================================== *)
(** * Properties: the two request schemas *)
(* ===================================================================== *)

Section SchemaAgreement.
Import Joi Validator.
Variable uriRule : list jsstring -> bool -> jsstring -> bool.

(** [isValid] of [validateRequest], computed. *)
Lemma validateRequest_isValid (body : jsval) :
  isValid (validateRequest uriRule body) = schemaAccepts uriRule body.
Proof.
  unfold validateRequest.
  destruct (validate uriRule runRequestSchema [] [] body) as [|d details] eqn:Hv.
  - apply validate_runRequestSchema in Hv. destruct Hv as [-> | Hacc]; [reflexivity|].
    rewrite (schemaAccepts_reads uriRule body Hacc). cbn [isValid]. now rewrite Hacc.
  - cbn [isValid]. destruct (schemaAccepts uriRule body) eqn:Hacc; [|reflexivity].
    assert (Hnil : validate uriRule runRequestSchema [] [] body = [])
      by (apply validate_runRequestSchema; now right).
    rewrite Hnil in Hv. discriminate.
Qed.

Lemma schemaAccepts_two_fields (documents : jsstring) (questions : list jsval) :
  documents <> [] ->
  schemaAccepts uriRule
    (VObj [(lit "documents", VStr documents); (lit "questions", VArr questions)])
  = uriRule httpSchemes false documents
    && (Nat.leb 1 (length questions) && Nat.leb (length questions) 10
        && forallb isQuestion questions).
Proof.
  intros Hd. destruct documents as [|c d]; [contradiction|]. reflexivity.
Qed.

(** X16. The two request schemas hold the questions to the same rule:
    for a [documents] value the URI rule accepts, [validateRequest]
    accepts the body exactly when the custom rule of
    [uploadRequestSchema] accepts its [questions] array, and both do so
    exactly for 1 to 10 strings of 5 to 1000 code units each. *)
Theorem run_and_upload_schemas_agree (documents : jsstring) (questions : list jsval) :
  documents <> [] ->
  uriRule httpSchemes false documents = true ->
  (isValid (validateRequest uriRule
              (VObj [(lit "documents", VStr documents);
                     (lit "questions", VArr questions)])) = true
   <-> uploadQuestionsRule (Return (VArr questions)) = inr questions) /\
  (uploadQuestionsRule (Return (VArr questions)) = inr questions
   <-> 1 <= length questions <= 10 /\ forallb isQuestion questions = true).
Proof.
  intros Hd Huri.
  assert (Hrule : uploadQuestionsRule (Return (VArr questions)) = inr questions
                  <-> 1 <= length questions <= 10 /\ forallb isQuestion questions = true).
  { cbn [uploadQuestionsRule]. rewrite <- checkUploadQuestions_none.
    destruct (Nat.eqb_spec (length questions) 0) as [Hz | Hnz].
    { split; [discriminate | lia]. }
    destruct (Nat.ltb_spec 10 (length questions)) as [Hbig | Hsmall].
    { split; [discriminate | lia]. }
    destruct (checkUploadQuestions questions).
    - split; [discriminate | intros [_ H]; discriminate].
    - split; [intros _; split; [lia | reflexivity] | reflexivity]. }
  split; [|exact Hrule].
  rewrite Hrule, validateRequest_isValid, (schemaAccepts_two_fields questions Hd), Huri.
  cbn [andb]. rewrite !andb_true_iff, !Nat.leb_le. tauto.
Qed.

End SchemaAgreement.

Section SchemaAgreementRuns.
Import Validator.

Lemma run_and_upload_schemas_agree_witness :
  isValid (validateRequest UriModel.uriRule (runBody [VStr (lit "What is covered?")])) = true
  <-> uploadQuestionsRule (Return (VArr [VStr (lit "What is covered?")]))
      = inr [VStr (lit "What is covered?")].
Proof.
  apply (@run_and_upload_schemas_agree UriModel.uriRule policyUrl
           [VStr (lit "What is covered?")]); [discriminate | reflexivity].
Defined.

End SchemaAgreementRuns.

(* ===================================================================== *)
(** * Properties: validatePdfUrl *)
(* ===================================================================== *)

Section PdfUrlFacts.
Import ErrorHandler PdfUrlCheck.

Lemma includes_nil (c : codeUnit) (sub : jsstring) : includes [] (c :: sub) = false.
Proof. reflexivity. Qed.

(** X17. [validatePdfUrl] never returns [false]: it returns [true] or it
    throws. It returns [true] exactly when the HEAD request succeeds and
    the [content-type] header contains the lower-case text [pdf]. *)
Theorem validatePdfUrl_true_or_throws (head : result (option jsstring)) :
  validatePdfUrl head <> Return false /\
  (validatePdfUrl head = Return true
   <-> exists contentType,
         head = Return (Some contentType) /\ includes contentType (lit "pdf") = true).
Proof.
  unfold validatePdfUrl.
  destruct head as [[[|c contentType]|]|error].
  - split; [discriminate|]. split; [discriminate|].
    intros [ct [H Hin]]. injection H as <-. discriminate.
  - destruct (includes (c :: contentType) (lit "pdf")) eqn:Hin.
    + split; [discriminate|]. split; [now exists (c :: contentType)|reflexivity].
    + split; [discriminate|]. split; [discriminate|].
      intros [ct [H Hin']]. injection H as <-. congruence.
  - split; [discriminate|]. split; [discriminate | intros [ct [H _]]; discriminate].
  - split; [discriminate|]. split; [discriminate | intros [ct [H _]]; discriminate].
Qed.

Example validatePdfUrl_runs :
  validatePdfUrl (Return (Some (lit "application/pdf; charset=binary"))) = Return true /\
  validatePdfUrl (Return (Some (lit "application/PDF")))
  = Throw (newError (lit "PDF URL validation failed: URL does not point to a PDF document")) /\
  validatePdfUrl (Throw (newError (lit "timeout of 10000ms exceeded")))
  = Throw (newError (lit "PDF URL validation failed: timeout of 10000ms exceeded")).
Proof. repeat split. Qed.

End PdfUrlFacts.

(* ===================================================================== *)
(** * Properties: sanitizeFilename *)
(* ===================================================================== *)

Section FileUtilsFacts.
Import FileUtils.

Lemma replaceEach_In (inClass : codeUnit -> bool) (s : jsstring) (c : codeUnit) :
  In c (replaceEach inClass s) -> c = underscore \/ (In c s /\ inClass c = false).
Proof.
  unfold replaceEach. rewrite in_map_iff. intros [x [Hx Hin]].
  destruct (inClass x) eqn:Hc; [now left|]. right. now subst.
Qed.

Lemma replaceRuns_In (inClass : codeUnit -> bool) (s : jsstring) (c : codeUnit) :
  forall inRun,
    In c (replaceRuns inClass inRun s) ->
    c = underscore \/ (In c s /\ inClass c = false).
Proof.
  induction s as [|x s IH]; intros inRun H; [contradiction|].
  cbn [replaceRuns] in H. destruct (inClass x) eqn:Hx.
  - destruct inRun.
    + destruct (IH _ H) as [-> | [Hin Hc]]; [now left | right; split; [now right | exact Hc]].
    + destruct H as [<- | H]; [now left|].
      destruct (IH _ H) as [-> | [Hin Hc]]; [now left | right; split; [now right | exact Hc]].
  - destruct H as [<- | H]; [right; split; [now left | exact Hx]|].
    destruct (IH _ H) as [-> | [Hin Hc]]; [now left | right; split; [now right | exact Hc]].
Qed.

(** After [replace(/_+/g, '_')] no two underscores stand in a row. *)
Lemma replaceRuns_underscore (s : jsstring) :
  forall inRun,
    noDoubleUnderscore (replaceRuns isUnderscore inRun s) = true /\
    (inRun = true -> headOutside isUnderscore (replaceRuns isUnderscore inRun s)).
Proof.
  induction s as [|x s IH]; intros inRun; [split; [reflexivity | intros _; exact I]|].
  cbn [replaceRuns]. destruct (isUnderscore x) eqn:Hx.
  - destruct (IH true) as [Hno Hhead]. specialize (Hhead eq_refl).
    destruct inRun; [split; [exact Hno | intros _; exact Hhead]|].
    split; [|discriminate].
    cbn [noDoubleUnderscore]. destruct (replaceRuns isUnderscore true s) as [|y rest];
      [reflexivity|].
    cbn [headOutside] in Hhead. rewrite Hhead, andb_false_r. exact Hno.
  - destruct (IH false) as [Hno _]. split; [|intros _; exact Hx].
    cbn [noDoubleUnderscore]. destruct (replaceRuns isUnderscore false s) as [|y rest];
      [reflexivity|].
    rewrite Hx. exact Hno.
Qed.

Lemma noDoubleUnderscore_app (a b : jsstring) :
  noDoubleUnderscore (a ++ b) = true ->
  noDoubleUnderscore a = true /\ noDoubleUnderscore b = true.
Proof.
  induction a as [|x a IH]; [now split|].
  destruct a as [|y a].
  - cbn [app noDoubleUnderscore]. destruct b as [|z b]; [now split|].
    rewrite andb_true_iff. intros [_ H]. now split.
  - cbn [app noDoubleUnderscore] in *. rewrite !andb_true_iff.
    intros [Hxy H]. destruct (IH H) as [Ha Hb]. repeat split; assumption.
Qed.

Lemma dropWhile_suffix (p : codeUnit -> bool) (s : jsstring) :
  exists pre, s = pre ++ dropWhile p s.
Proof.
  induction s as [|c s [pre IH]]; [now exists []|].
  cbn [dropWhile]. destruct (p c); [|now exists []].
  exists (c :: pre). cbn [app]. now rewrite <- IH.
Qed.

Lemma dropWhile_head (p : codeUnit -> bool) (s : jsstring) :
  headOutside p (dropWhile p s).
Proof.
  induction s as [|c s IH]; [exact I|].
  cbn [dropWhile]. destruct (p c) eqn:Hc; [exact IH | exact Hc].
Qed.

Lemma dropWhileEnd_prefix (p : codeUnit -> bool) (s : jsstring) :
  exists post, s = dropWhileEnd p s ++ post.
Proof.
  induction s as [|c s [post IH]]; [now exists []|].
  cbn [dropWhileEnd]. destruct (dropWhileEnd p s) as [|d kept].
  - destruct (p c); [now exists (c :: s) | exists s; reflexivity].
  - exists post. cbn [app] in *. now rewrite <- IH.
Qed.

Lemma headOutside_prefix (p : codeUnit -> bool) (a b : jsstring) :
  headOutside p (a ++ b) -> headOutside p a.
Proof. destruct a; [intros _; exact I | trivial]. Qed.

(** What the chain of replacements guarantees, before the final
    [|| 'unnamed']. *)
Lemma sanitizeFilename_chain (filename : jsstring) :
  let replaced :=
    substring
      (stripUnderscores
         (replaceRuns isUnderscore false
            (replaceRuns isWhiteSpace false (replaceEach isUnsafe filename))))
      0 (Some 100%Z) in
  length replaced <= 100 /\
  Forall (fun c => isUnsafe c = false /\ isWhiteSpace c = false) replaced /\
  noDoubleUnderscore replaced = true /\
  headOutside isUnderscore replaced.
Proof.
  intros replaced. subst replaced. rewrite substring_to.
  set (s3 := replaceRuns isUnderscore false
               (replaceRuns isWhiteSpace false (replaceEach isUnsafe filename))).
  assert (Hchars : Forall (fun c => isUnsafe c = false /\ isWhiteSpace c = false) s3).
  { apply Forall_forall. intros c Hc. subst s3.
    apply replaceRuns_In in Hc. destruct Hc as [-> | [Hc _]]; [now split|].
    apply replaceRuns_In in Hc. destruct Hc as [-> | [Hc Hws]]; [now split|].
    apply replaceEach_In in Hc. destruct Hc as [-> | [_ Hun]]; now split. }
  assert (Hno : noDoubleUnderscore s3 = true) by apply replaceRuns_underscore.
  unfold stripUnderscores.
  destruct (dropWhile_suffix isUnderscore s3) as [pre Hpre].
  pose proof (dropWhile_head isUnderscore s3) as Hhead.
  set (s4 := dropWhile isUnderscore s3) in *.
  destruct (dropWhileEnd_prefix isUnderscore s4) as [post Hpost].
  set (s5 := dropWhileEnd isUnderscore s4) in *.
  rewrite Hpre in Hchars, Hno. apply Forall_app in Hchars. destruct Hchars as [_ Hchars].
  apply noDoubleUnderscore_app in Hno. destruct Hno as [_ Hno].
  rewrite Hpost in Hchars, Hno, Hhead.
  apply Forall_app in Hchars. destruct Hchars as [Hchars _].
  apply noDoubleUnderscore_app in Hno. destruct Hno as [Hno _].
  apply headOutside_prefix in Hhead.
  rewrite <- (firstn_skipn 100 s5) in Hchars, Hno, Hhead.
  apply Forall_app in Hchars. destruct Hchars as [Hchars _].
  apply noDoubleUnderscore_app in Hno. destruct Hno as [Hno _].
  apply headOutside_prefix in Hhead.
  repeat split; try assumption. apply firstn_le_length.
Qed.

(** X18. Whatever it is given, [sanitizeFilename] returns a name that is
    not empty, has at most 100 code units, holds none of the unsafe
    characters and no white space, has no two underscores in a row and
    does not start with an underscore. *)
Theorem sanitizeFilename_safe (filename : jsval) :
  let result := sanitizeFilename filename in
  result <> [] /\
  length result <= 100 /\
  Forall (fun c => isUnsafe c = false /\ isWhiteSpace c = false) result /\
  noDoubleUnderscore result = true /\
  headOutside isUnderscore result.
Proof.
  assert (Hunnamed :
    lit "unnamed" <> [] /\ length (lit "unnamed") <= 100 /\
    Forall (fun c => isUnsafe c = false /\ isWhiteSpace c = false) (lit "unnamed") /\
    noDoubleUnderscore (lit "unnamed") = true /\
    headOutside isUnderscore (lit "unnamed")).
  { repeat split; try discriminate; try (cbn; lia).
    apply Forall_forall. intros c Hc. cbn in Hc.
    repeat (destruct Hc as [<- | Hc]; [now split|]). contradiction. }
  intros result. subst result.
  destruct filename as [| | b | z | [|c s] | items | fields]; try exact Hunnamed.
  cbn [sanitizeFilename].
  pose proof (sanitizeFilename_chain (c :: s)) as Hchain. cbv zeta in Hchain.
  destruct (substring _ 0 (Some 100%Z)) as [|d rest]; [exact Hunnamed|].
  split; [discriminate | exact Hchain].
Qed.

Example sanitizeFilename_runs :
  sanitizeFilename (VStr (lit "  My report: v2?.pdf ")) = lit "My_report_v2_.pdf" /\
  sanitizeFilename (VStr (lit "///")) = lit "unnamed" /\
  sanitizeFilename (VStr (lit "a__b")) = lit "a_b" /\
  sanitizeFilename VUndefined = lit "unnamed" /\
  sanitizeFilename (VStr (repeat 97%N 99 ++ lit " tail")) = repeat 97%N 99 ++ lit "_".
Proof. vm_compute. repeat split. Qed.

End FileUtilsFacts.

(* ===================================================================== *)
(** * Properties: the error handler *)
(* ===================================================================== *)

Section ErrorHandlerFacts.
Import ErrorHandler.

Lemma clientStatus_range (error : appError) (s : Z) :
  clientStatus error = Some s -> (400 <= s < 500)%Z.
Proof.
  unfold clientStatus. destruct (status error) as [s'|]; [|discriminate].
  destruct (negb (Z.eqb s' 0) && (400 <=? s')%Z && (s' <? 500)%Z) eqn:Hc; [|discriminate].
  intros H. injection H as <-.
  rewrite !andb_true_iff in Hc. destruct Hc as [[_ Hlo] Hhi].
  apply Z.leb_le in Hlo. apply Z.ltb_lt in Hhi. lia.
Qed.

Lemma classify_status (error : appError) :
  let s := fst (classify error) in
  (400 <= s < 500)%Z \/ s = 500%Z \/ s = 503%Z.
Proof.
  unfold classify.
  destruct (nameIs error (lit "ValidationError")); [cbn; lia|].
  destruct (nameIs error (lit "UnauthorizedError") || mentions error (lit "unauthorized"));
    [cbn; lia|].
  destruct (nameIs error (lit "ForbiddenError") || mentions error (lit "forbidden"));
    [cbn; lia|].
  destruct (nameIs error (lit "NotFoundError") || mentions error (lit "not found"));
    [cbn; lia|].
  destruct (nameIs error (lit "RateLimitError") || mentions error (lit "rate limit"));
    [cbn; lia|].
  destruct (clientStatus error) as [s|] eqn:Hs.
  - cbn. left. exact (@clientStatus_range error s Hs).
  - destruct (codeIs error (lit "LIMIT_FILE_SIZE")); [cbn; lia|].
    destruct (codeIs error (lit "ENOENT")); [cbn; lia|].
    destruct (codeIs error (lit "ECONNREFUSED")); cbn; lia.
Qed.

(** [errorHandler], from what [classify] gives. *)
Lemma errorHandler_sends (error : appError) (reqId nodeEnv : option jsstring) :
  exists body,
    errorHandler error false reqId nodeEnv = Sent (fst (classify error)) body /\
    ErrorHandler.error body = fst (fst (fst (snd (classify error)))) /\
    responseMessage body = snd (fst (fst (snd (classify error)))).
Proof.
  unfold errorHandler.
  destruct (classify error) as [s [[[n m] d] r]]. cbn [fst snd].
  destruct nodeEnv as [env|]; [destruct (jsstring_eqb env (lit "development"))|];
    eexists; repeat split.
Qed.

(** X19. [errorHandler] never answers with a success status. When the
    headers are already sent it passes the error on to [next] and sends
    nothing; otherwise the status it sends is a client error (400 to 499),
    500 or 503. *)
Theorem errorHandler_status (error : appError) (headersSent : bool)
    (reqId nodeEnv : option jsstring) :
  match errorHandler error headersSent reqId nodeEnv with
  | Delegated passed => headersSent = true /\ passed = error
  | Sent statusCode _ =>
      headersSent = false /\
      ((400 <= statusCode < 500)%Z \/ statusCode = 500%Z \/ statusCode = 503%Z)
  end.
Proof.
  destruct headersSent; [now split|].
  destruct (errorHandler_sends error reqId nodeEnv) as [body [-> _]].
  split; [reflexivity | apply classify_status].
Qed.

Lemma isPlain_classify (error : appError) :
  isPlain error = true ->
  classify error =
  match clientStatus error with
  | Some s =>
      (s, (orDefault (JS.name (base error)) (lit "Client Error"),
           JS.message (base error), VUndefined, None))
  | None =>
      if codeIs error (lit "LIMIT_FILE_SIZE") then
        (413, (lit "File Too Large", lit "Uploaded file exceeds maximum size limit",
               VUndefined, None))%Z
      else if codeIs error (lit "ENOENT") then
        (404, (lit "File Not Found", lit "Requested file does not exist",
               VUndefined, None))%Z
      else if codeIs error (lit "ECONNREFUSED") then
        (503, (lit "Service Unavailable", lit "External service connection failed",
               VUndefined, None))%Z
      else
        (500, (lit "Internal Server Error", lit "An unexpected error occurred",
               VUndefined, None))%Z
  end.
Proof.
  unfold isPlain. rewrite negb_true_iff, !orb_false_iff.
  intros [[[[[[[[H1 H2] H3] H4] H5] H6] H7] H8] H9].
  unfold classify. rewrite H1, H2, H3, H4, H5, H6, H7, H8, H9. reflexivity.
Qed.

(** X20. An error made by [createError] with a client status (400 to
    499), whose name and message trigger none of the special cases, goes
    through [errorHandler] unchanged: the response has that status, the
    error's name and the error's message. *)
Theorem createError_passes_through (message : jsstring) (statusCode : Z)
    (name reqId nodeEnv : option jsstring) :
  isPlain (createError message (Some statusCode) name) = true ->
  (400 <= statusCode < 500)%Z ->
  exists body,
    errorHandler (createError message (Some statusCode) name) false reqId nodeEnv
    = Sent statusCode body /\
    ErrorHandler.error body
    = orDefault (match name with Some n => n | None => lit "CustomError" end)
                (lit "Client Error") /\
    responseMessage body = message.
Proof.
  intros Hplain Hrange.
  destruct (errorHandler_sends (createError message (Some statusCode) name) reqId nodeEnv)
    as [body [Hsent [Herr Hmsg]]].
  rewrite (isPlain_classify _ Hplain) in Hsent, Herr, Hmsg.
  assert (Hs : clientStatus (createError message (Some statusCode) name) = Some statusCode).
  { unfold clientStatus. cbn [status createError].
    destruct (Z.eqb_spec statusCode 0); [lia|].
    destruct (Z.leb_spec 400 statusCode); [|lia].
    destruct (Z.ltb_spec statusCode 500); [reflexivity | lia]. }
  rewrite Hs in Hsent, Herr, Hmsg. exists body. repeat split; assumption.
Qed.

Lemma createError_passes_through_witness :
  exists body,
    errorHandler (createError (lit "Payload too large") (Some 413%Z) None) false None None
    = Sent 413 body /\
    ErrorHandler.error body = lit "CustomError" /\
    responseMessage body = lit "Payload too large".
Proof.
  apply (@createError_passes_through (lit "Payload too large") 413 None None None);
    [reflexivity | lia].
Defined.

(** X21. A file [fileFilter] refuses is answered by [errorHandler] with
    status 400 and the message [Only PDF files are allowed]; [fileFilter]
    refuses exactly the files whose MIME type is not [application/pdf]. *)
Theorem fileFilter_rejection_is_400 (mimetype : jsstring)
    (reqId nodeEnv : option jsstring) :
  match HackrxRoutes.fileFilter mimetype with
  | None => mimetype = lit "application/pdf"
  | Some error =>
      mimetype <> lit "application/pdf" /\
      exists body,
        errorHandler error false reqId nodeEnv = Sent 400 body /\
        ErrorHandler.error body = lit "Error" /\
        responseMessage body = lit "Only PDF files are allowed"
  end.
Proof.
  unfold HackrxRoutes.fileFilter.
  destruct (jsstring_eqb mimetype (lit "application/pdf")) eqn:Hm.
  - now apply jsstring_eqb_eq.
  - split; [now apply jsstring_eqb_neq|]. apply errorHandler_sends.
Qed.

Example errorHandler_runs :
  errorHandler (mkAppError (mkJsError (lit "MulterError") (lit "File too large") None
                              (Some (lit "LIMIT_FILE_SIZE")))
                           None None VUndefined VUndefined)
               false None (Some (lit "production"))
  = Sent 413 (mkErrorResponse (lit "File Too Large")
                (lit "Uploaded file exceeds maximum size limit")
                (lit "unknown") VUndefined None false) /\
  errorHandler (mkAppError (newError (lit "PDF document not found at the provided URL"))
                           (Some 422%Z) None VUndefined VUndefined)
               false (Some (lit "r-1")) None
  = Sent 404 (mkErrorResponse (lit "Not Found")
                (lit "PDF document not found at the provided URL")
                (lit "r-1") VUndefined None false).
Proof. split; reflexivity. Qed.

End ErrorHandlerFacts.

(* ===================================================================== *)
(** * Properties: the route handlers *)
(* ===================================================================== *)

Section RunRouteFacts.
Import Validator HackrxRoutes.
Variable uriRule : list jsstring -> bool -> jsstring -> bool.

Lemma questions_are_strings (items : list jsval) :
  forallb isQuestion items = true -> exists questions, items = map VStr questions.
Proof.
  induction items as [|item rest IH]; [now exists []|].
  cbn [forallb]. rewrite andb_true_iff. intros [Hitem Hrest].
  destruct (IH Hrest) as [questions ->].
  destruct item; try discriminate. now exists (s :: questions).
Qed.

(** The shape of a body [validateRequest] accepts. *)
Lemma accepted_body_shape (body : jsval) :
  isValid (validateRequest uriRule body) = true ->
  exists fields documents questions,
    body = VObj fields /\
    getField fields (lit "documents") = VStr documents /\
    getField fields (lit "questions") = VArr (map VStr questions) /\
    1 <= length questions <= 10.
Proof.
  rewrite validateRequest_isValid.
  destruct body as [| | b | z | s | elems | fields]; try discriminate.
  cbn [schemaAccepts]. rewrite !andb_true_iff. intros [[_ Hdoc] Hq].
  destruct (getField fields (lit "documents")) as [| | | | documents | |] eqn:Hd;
    try discriminate.
  destruct (getField fields (lit "questions")) as [| | | | | items |] eqn:Hi;
    try discriminate.
  rewrite !andb_true_iff, !Nat.leb_le in Hq. destruct Hq as [[Hmin Hmax] Hall].
  destruct (questions_are_strings items Hall) as [questions ->].
  rewrite length_map in Hmin, Hmax.
  exists fields, documents, questions. repeat split; assumption.
Qed.

Lemma validateRequest_reports (body : jsval) :
  isValid (validateRequest uriRule body) = false ->
  exists e rest, errors (validateRequest uriRule body) = Some (e :: rest).
Proof.
  unfold validateRequest.
  destruct (Joi.validate uriRule runRequestSchema [] [] body) as [|d details].
  - destruct (readThrows body || readThrows (readProp body (lit "questions")));
      [|discriminate].
    intros _. do 2 eexists. reflexivity.
  - intros _. do 2 eexists. reflexivity.
Qed.

Lemma runHandler_accepted (body : jsval) (fields : list (jsstring * jsval))
    (documents : jsstring) (questions : list jsstring) :
  isValid (validateRequest uriRule body) = true ->
  body = VObj fields ->
  getField fields (lit "documents") = VStr documents ->
  getField fields (lit "questions") = VArr (map VStr questions) ->
  1 <= length questions <= 10 ->
  runHandler uriRule body = ProcessDocument (VStr documents) (map VStr questions).
Proof.
  intros Hvalid -> Hdoc Hq Hlen. unfold runHandler. rewrite Hvalid.
  cbn [negb readThrows readProp]. rewrite Hdoc, Hq.
  destruct questions as [|q rest]; [cbn in Hlen; lia|].
  cbn [map]. rewrite <- (map_cons VStr q rest), length_map.
  destruct (Nat.ltb_spec 10 (length (q :: rest))); [lia | reflexivity].
Qed.

(** X22. A request whose body [validateRequest] accepts is answered with
    200 and one answer per question. The handler's checks hand the
    pipeline a string URL and between 1 and 10 string questions, and the
    rest of the handler then sends the answers whatever the download, the
    parser and the model do: its 422, 502 and 500 branches are never
    taken. *)
Theorem run_route_answers_every_question (body : jsval) :
  isValid (validateRequest uriRule body) = true ->
  exists documents questions,
    runHandler uriRule body = ProcessDocument (VStr documents) (map VStr questions) /\
    1 <= length questions <= 10 /\
    forall (E : Externals) (st : State),
    exists st' answers,
      runPipeline documents questions st = (st', Return (Answers answers)) /\
      length answers = length questions.
Proof.
  intros Hvalid.
  destruct (accepted_body_shape body Hvalid)
    as [fields [documents [questions [Hbody [Hdoc [Hq Hlen]]]]]].
  exists documents, questions. split; [|split; [exact Hlen|]].
  - exact (@runHandler_accepted body fields documents questions Hvalid Hbody Hdoc Hq Hlen).
  - intros E st. unfold runPipeline, tryCatch, bind.
    rewrite processDocumentAndQuestions_run, processQuestions_slots.
    do 2 eexists. split; [reflexivity | apply slots_length].
Qed.

(** X23. Before the pipeline the run handler only ever replies with the
    400 of a failed [validateRequest], carrying at least one detail: its
    own tests on the [questions] array, and the 500 for a body that
    cannot be destructured, are never reached. It goes on to the pipeline
    exactly when [validateRequest] accepts the body. *)
Theorem runHandler_replies_only_validation_errors (body : jsval) :
  match runHandler uriRule body with
  | RunReply r =>
      isValid (validateRequest uriRule body) = false /\
      exists e rest, r = ValidationFailed (Some (e :: rest))
  | ProcessDocument _ _ => isValid (validateRequest uriRule body) = true
  end.
Proof.
  destruct (isValid (validateRequest uriRule body)) eqn:Hvalid.
  - destruct (accepted_body_shape body Hvalid)
      as [fields [documents [questions [Hbody [Hdoc [Hq Hlen]]]]]].
    now rewrite (@runHandler_accepted body fields documents questions
                   Hvalid Hbody Hdoc Hq Hlen).
  - unfold runHandler. rewrite Hvalid. cbn [negb]. split; [reflexivity|].
    destruct (validateRequest_reports body Hvalid) as [e [rest ->]].
    now exists e, rest.
Qed.

End RunRouteFacts.

Section UploadRouteFacts.
Import PdfService RagService HackrxRoutes.
Context {E : Externals} {F : FileSystem E}.

(** The local-path variant, from what extraction does. *)
Lemma processFileAndQuestions_run (filePath : jsstring) (questions : list jsstring)
    (st : State) :
  processFileAndQuestions filePath questions st =
  match extractTextFromFile filePath st with
  | (st1, Return text) => GeminiService.processQuestions questions text st1
  | (st1, Throw _) =>
      (st1, Throw (documentProcessingError (lit "Failed to process file and questions")))
  end.
Proof.
  unfold processFileAndQuestions, tryCatch, bind.
  destruct (extractTextFromFile filePath st) as [st1 [text|error]]; [|reflexivity].
  rewrite processQuestions_slots. reflexivity.
Qed.

(** X24. Once the upload handler has called the pipeline on a staged
    file, it passes that file's path to [fs.unlink] exactly once, after
    the pipeline and whether the pipeline returned or threw, and makes no
    other external call of its own. It then answers 200 with one answer
    per question when extraction returned a text, and 500 when extraction
    threw. *)
Theorem uploadPipeline_cleans_up (filePath : jsstring) (questions : list jsstring)
    (st : State) :
  filePath <> [] ->
  let piped := processFileAndQuestions filePath questions st in
  let run := uploadPipeline filePath questions st in
  unlinked (snd run) = [filePath] /\
  world (fst run) = fst (unlink filePath (world (fst piped))) /\
  trace (fst run) = trace (fst piped) /\
  match snd (extractTextFromFile filePath st) with
  | Return _ =>
      exists answers,
        sent (snd run) = Answers answers /\ length answers = length questions
  | Throw _ =>
      sent (snd run) = Failure 500 (lit "Internal Server Error")
                         (lit "Failed to process uploaded file")
  end.
Proof.
  intros Hpath piped run. subst piped run. unfold uploadPipeline.
  rewrite processFileAndQuestions_run.
  destruct (extractTextFromFile filePath st) as [st1 [text|error]]; cbn [snd].
  - rewrite processQuestions_slots. cbn [fst snd].
    repeat split. eexists. split; [reflexivity | apply slots_length].
  - destruct filePath as [|c filePath]; [contradiction|]. cbn [fst snd].
    repeat split.
Qed.

End UploadRouteFacts.

Section RouteRuns.
Import Validator HackrxRoutes Scripted.

Lemma run_route_answers_every_question_witness :
  exists documents questions,
    runHandler UriModel.uriRule (runBody [VStr (lit "What is covered?")])
    = ProcessDocument (VStr documents) (map VStr questions) /\
    1 <= length questions <= 10 /\
    forall (E : Externals) (st : State),
    exists st' answers,
      runPipeline documents questions st = (st', Return (Answers answers)) /\
      length answers = length questions.
Proof.
  apply (@run_route_answers_every_question UriModel.uriRule
           (runBody [VStr (lit "What is covered?")])).
  reflexivity.
Defined.

Lemma uploadPipeline_cleans_up_witness :
  unlinked (snd (@uploadPipeline scripted scriptedUnlink (lit "uploads/policy.pdf")
                   [lit "What is the notice period?"] (start stagedPolicy)))
  = [lit "uploads/policy.pdf"].
Proof.
  apply (@uploadPipeline_cleans_up scripted scriptedUnlink (lit "uploads/policy.pdf")
           [lit "What is the notice period?"] (start stagedPolicy)).
  discriminate.
Defined.

Example uploadPipeline_runs :
  @uploadPipeline scripted scriptedUnlink (lit "uploads/policy.pdf")
    [lit "What is the notice period?"] (start stagedPolicy)
  = (@mkState scripted (mkScript [] [] [])
       [EvPathExists (lit "uploads/policy.pdf"); EvReadFile (lit "uploads/policy.pdf");
        EvPdf (lit "Notice period: thirty days.");
        EvGenerateContent
          (GeminiService.buildPrompt (lit "What is the notice period?")
             (lit "Notice period: thirty days."))],
     mkUploadOutcome (Answers [lit "Thirty days."]) [lit "uploads/policy.pdf"]) /\
  snd (@uploadPipeline scripted scriptedUnlink (lit "uploads/missing.pdf")
         [lit "What is the notice period?"] (start nothingStaged))
  = mkUploadOutcome
      (Failure 500 (lit "Internal Server Error") (lit "Failed to process uploaded file"))
      [lit "uploads/missing.pdf"].
Proof. split; reflexivity. Qed.

End RouteRuns.
